(* Shallow embedding of utils/work_timer.py and utils/ws_client.py
   (smartchair-camera-desktop) with the properties of their specification. *)

From Stdlib Require Import QArith Qround Qabs ZArith List String Bool Lia Lqa.
Local Set Warnings "-register-all".

Import ListNotations.

(* ================================================================= *)
(** * utils/work_timer.py : class WorkTimer                           *)
(* ================================================================= *)

Module WorkTimer.

Open Scope Q_scope.

(** The [state] attribute: one of the strings "IDLE", "WORK", "BREAK". *)
Inductive timer_state := IDLE | WORK | BREAK.

(** Python floats are modelled as exact rationals: [time.time()] values,
    the accumulated totals and the attention level. *)
Record WorkTimer := mkWorkTimer {
  attention_threshold : Q;
  total_work_seconds : Q;
  total_break_seconds : Q;
  _last_update_time : Q;
  state : timer_state
}.

(** [WorkTimer.__init__(attention_threshold)]; [now] is [time.time()]. *)
Definition __init__ (threshold now : Q) : WorkTimer :=
  mkWorkTimer threshold 0 0 now IDLE.

(** [WorkTimer.update(is_present, attention_level)]; [now] is the value
    returned by [time.time()] at the call. *)
Definition update (now : Q) (is_present : bool) (attention_level : Q)
    (self : WorkTimer) : WorkTimer :=
  let delta := now - _last_update_time self in
  (* self._last_update_time = now *)
  if negb is_present then
    (* self.state = "BREAK"; self.total_break_seconds += delta; return *)
    mkWorkTimer (attention_threshold self) (total_work_seconds self)
      (total_break_seconds self + delta) now BREAK
  else if Qlt_le_dec attention_level (attention_threshold self) then
    (* attention_level < self.attention_threshold -> BREAK *)
    mkWorkTimer (attention_threshold self) (total_work_seconds self)
      (total_break_seconds self + delta) now BREAK
  else
    (* self.state = "WORK"; self.total_work_seconds += delta *)
    mkWorkTimer (attention_threshold self) (total_work_seconds self + delta)
      (total_break_seconds self) now WORK.

(** One call of [update]: the clock reading, [is_present], [attention_level]. *)
Definition sample := (Q * bool * Q)%type.

(** A sequence of calls to [update], in order. *)
Fixpoint run (calls : list sample) (self : WorkTimer) : WorkTimer :=
  match calls with
  | [] => self
  | (now, p, a) :: rest => run rest (update now p a self)
  end.

(** Sum of the elapsed deltas [now - previous now] seen by the calls,
    starting from the timestamp [last]. *)
Fixpoint sum_deltas (last : Q) (calls : list sample) : Q :=
  match calls with
  | [] => 0
  | (now, _, _) :: rest => (now - last) + sum_deltas now rest
  end.

Definition get_state (self : WorkTimer) : timer_state := state self.

End WorkTimer.

(* ================================================================= *)
(** * utils/ws_client.py : class WSClient                             *)
(* ================================================================= *)

Module WSClient.

(** Python exceptions that reach the handlers of ws_client.py. *)
Inductive exn :=
  | WebSocketConnectionClosedException
  | QueueFull                 (* queue.Full *)
  | QueueEmpty                (* queue.Empty *)
  | JSONDecodeError
  | AttributeError            (* [.get] on a JSON value that is not a dict *)
  | OtherException.

(** Handler clauses: [except X] and [except Exception]. *)
Definition is_queue_full (e : exn) : bool :=
  match e with QueueFull => true | _ => false end.
Definition is_ws_closed (e : exn) : bool :=
  match e with WebSocketConnectionClosedException => true | _ => false end.
Definition is_exception (_ : exn) : bool := true.

Inductive level := INFO | WARNING | ERROR.
Definition log_entry := (level * string)%type.

(** A live websocket handle; [close_raises] says whether its [close()]
    raises. *)
Record socket := mkSocket { sock_id : nat; close_raises : bool }.

(** Items of [self._queue]: a serialized message or the [None] that
    [close] puts there. *)
Definition qitem := option string.

(** [queue.Queue(maxsize=10)]. *)
Definition maxsize : nat := 10.

(** The attributes of a [WSClient] object.  [worker_alive] and
    [receiver_alive] are [is_alive()] of the two threads; [stop_event] is
    [self._stop_event.is_set()]; [sock_closes] records each [close()] call
    made on a socket handle, [log] each logger call. *)
Record client := mkClient {
  primary_url : string;
  backup_url : string;
  active_url : string;
  camera_enabled : bool;
  ws : option socket;
  connected : bool;
  queue : list qitem;
  worker_alive : bool;
  receiver_alive : bool;
  stop_event : bool;
  last_ping_time : Q;
  clock : Q;                  (* what [time.time()] returns now *)
  log : list log_entry;
  sock_closes : list nat
}.

(** ** A state and exception monad: a Python statement either returns or
    raises, and in both cases leaves the object mutated so far. *)
Inductive result (A : Type) := Ok (a : A) | Raise (e : exn).
Arguments Ok {A} a.
Arguments Raise {A} e.

Definition M (A : Type) := client -> result A * client.

Definition ret {A} (a : A) : M A := fun s => (Ok a, s).
Definition raise {A} (e : exn) : M A := fun s => (Raise e, s).
Definition bind {A B} (m : M A) (k : A -> M B) : M B :=
  fun s => match m s with
           | (Ok a, s') => k a s'
           | (Raise e, s') => (Raise e, s')
           end.
Definition get : M client := fun s => (Ok s, s).
Definition modify (f : client -> client) : M unit := fun s => (Ok tt, f s).

(** [try: m except <catches> as e: h e]. *)
Definition try_except {A} (m : M A) (catches : exn -> bool) (h : exn -> M A)
    : M A :=
  fun s => match m s with
           | (Raise e, s') => if catches e then h e s' else (Raise e, s')
           | r => r
           end.

Declare Scope ws_scope.
Delimit Scope ws_scope with ws.
Notation "x <- m ;; k" := (bind m (fun x => k))
  (at level 61, m at next level, right associativity) : ws_scope.
Notation "m ;; k" := (bind m (fun _ => k))
  (at level 61, right associativity) : ws_scope.
Open Scope ws_scope.

(** ** Attribute assignments. *)
Definition set_ws (v : option socket) (s : client) : client :=
  mkClient (primary_url s) (backup_url s) (active_url s) (camera_enabled s) v
    (connected s) (queue s) (worker_alive s) (receiver_alive s) (stop_event s)
    (last_ping_time s) (clock s) (log s) (sock_closes s).
Definition set_connected (v : bool) (s : client) : client :=
  mkClient (primary_url s) (backup_url s) (active_url s) (camera_enabled s)
    (ws s) v (queue s) (worker_alive s) (receiver_alive s) (stop_event s)
    (last_ping_time s) (clock s) (log s) (sock_closes s).
Definition set_active_url (v : string) (s : client) : client :=
  mkClient (primary_url s) (backup_url s) v (camera_enabled s)
    (ws s) (connected s) (queue s) (worker_alive s) (receiver_alive s)
    (stop_event s) (last_ping_time s) (clock s) (log s) (sock_closes s).
Definition set_camera_enabled (v : bool) (s : client) : client :=
  mkClient (primary_url s) (backup_url s) (active_url s) v
    (ws s) (connected s) (queue s) (worker_alive s) (receiver_alive s)
    (stop_event s) (last_ping_time s) (clock s) (log s) (sock_closes s).
Definition set_queue (v : list qitem) (s : client) : client :=
  mkClient (primary_url s) (backup_url s) (active_url s) (camera_enabled s)
    (ws s) (connected s) v (worker_alive s) (receiver_alive s)
    (stop_event s) (last_ping_time s) (clock s) (log s) (sock_closes s).
Definition set_worker_alive (v : bool) (s : client) : client :=
  mkClient (primary_url s) (backup_url s) (active_url s) (camera_enabled s)
    (ws s) (connected s) (queue s) v (receiver_alive s)
    (stop_event s) (last_ping_time s) (clock s) (log s) (sock_closes s).
Definition set_receiver_alive (v : bool) (s : client) : client :=
  mkClient (primary_url s) (backup_url s) (active_url s) (camera_enabled s)
    (ws s) (connected s) (queue s) (worker_alive s) v
    (stop_event s) (last_ping_time s) (clock s) (log s) (sock_closes s).
Definition set_stop_event (v : bool) (s : client) : client :=
  mkClient (primary_url s) (backup_url s) (active_url s) (camera_enabled s)
    (ws s) (connected s) (queue s) (worker_alive s) (receiver_alive s)
    v (last_ping_time s) (clock s) (log s) (sock_closes s).
Definition set_last_ping_time (v : Q) (s : client) : client :=
  mkClient (primary_url s) (backup_url s) (active_url s) (camera_enabled s)
    (ws s) (connected s) (queue s) (worker_alive s) (receiver_alive s)
    (stop_event s) v (clock s) (log s) (sock_closes s).
Definition add_log (e : log_entry) (s : client) : client :=
  mkClient (primary_url s) (backup_url s) (active_url s) (camera_enabled s)
    (ws s) (connected s) (queue s) (worker_alive s) (receiver_alive s)
    (stop_event s) (last_ping_time s) (clock s) (log s ++ [e]) (sock_closes s).
Definition add_sock_close (n : nat) (s : client) : client :=
  mkClient (primary_url s) (backup_url s) (active_url s) (camera_enabled s)
    (ws s) (connected s) (queue s) (worker_alive s) (receiver_alive s)
    (stop_event s) (last_ping_time s) (clock s) (log s) (sock_closes s ++ [n]).

Definition logger (l : level) (msg : string) : M unit := modify (add_log (l, msg)).

(** ** Library calls. *)

(** [queue.Queue.full()]. *)
Definition queue_full (q : list qitem) : bool := Nat.leb maxsize (List.length q).

(** [queue.Queue.put_nowait(x)]: raises [queue.Full] when full. *)
Definition put_nowait (x : qitem) : M unit :=
  s <- get ;;
  if queue_full (queue s) then raise QueueFull
  else modify (set_queue (queue s ++ [x])).

(** [ws.close()] on a handle. *)
Definition ws_close (sk : socket) : M unit :=
  modify (add_sock_close (sock_id sk)) ;;
  if close_raises sk then raise OtherException else ret tt.

(** JSON values as produced by [json.loads]. *)
Inductive json :=
  | JNull
  | JBool (b : bool)
  | JNum (z : Z)
  | JStr (s : string)
  | JArr (l : list json)
  | JObj (kv : list (string * json)).

(** [dict.get(k)] on the dict built by [json.loads]: with repeated keys the
    last binding wins. *)
Fixpoint dict_get (k : string) (kv : list (string * json)) : option json :=
  match kv with
  | [] => None
  | (k', v) :: rest =>
      match dict_get k rest with
      | Some v' => Some v'
      | None => if String.eqb k k' then Some v else None
      end
  end.

(** [v == "lit"] for the result [v] of [dict.get]. *)
Definition get_eq_str (v : option json) (lit : string) : bool :=
  match v with Some (JStr s) => String.eqb s lit | _ => false end.

(** The outcome of one blocking [self.ws.recv()]. *)
Inductive recv_outcome := RecvText (msg : string) | RecvRaises (e : exn).

Definition ws_recv (r : recv_outcome) : M string :=
  match r with RecvText m => ret m | RecvRaises e => raise e end.

(** Log texts are the f-strings of the source without their emoji. *)
Definition msg_trying (url : string) := ("Trying WebSocket connect: " ++ url)%string.
Definition msg_connected (url : string) := ("Connected to " ++ url)%string.
Definition msg_failed (url : string) := ("Failed to connect to " ++ url)%string.

Section Methods.

(** The external functions the methods call: [json.dumps] on the payload
    dict ([None] when it raises), [json.loads] ([None] when it raises) and
    [websocket.create_connection(url, timeout=5)] ([None] when it raises). *)
Variable Payload : Type.
Variable json_dumps : Payload -> option string.
Variable json_loads : string -> option json.
Variable create_connection : string -> option socket.

(** [WSClient.__init__]: the worker thread is started at the end. *)
Definition __init__ (primary backup : string) (now : Q) : client :=
  mkClient primary backup primary true None false [] true false false 0 now
    [] [].

Definition _start_worker : M unit :=
  s <- get ;;
  if worker_alive s then ret tt
  else (modify (set_stop_event false) ;; modify (set_worker_alive true)).

Definition _start_receiver : M unit :=
  s <- get ;;
  if receiver_alive s then ret tt
  else modify (set_receiver_alive true).

Definition _safe_close : M unit :=
  s <- get ;;
  match ws s with
  | Some sk =>
      try_except (ws_close sk) is_exception (fun _ => ret tt) ;;
      modify (set_ws None)
  | None => ret tt
  end.

Definition _try_connect (url : string) : M bool :=
  try_except
    (logger INFO (msg_trying url) ;;
     match create_connection url with
     | None => raise OtherException
     | Some sk =>
         s <- get ;;
         (match ws s with
          | Some old => try_except (ws_close old) is_exception (fun _ => ret tt)
          | None => ret tt
          end) ;;
         modify (set_ws (Some sk)) ;;
         modify (set_connected true) ;;
         modify (set_active_url url) ;;
         s' <- get ;;
         modify (set_last_ping_time (clock s')) ;;
         logger INFO (msg_connected url) ;;
         _start_receiver ;;
         ret true
     end)
    is_exception
    (fun _ => logger WARNING (msg_failed url) ;; ret false).

Definition _connect_sequence : M bool :=
  s <- get ;;
  ok1 <- _try_connect (primary_url s) ;;
  if ok1 then ret true
  else (logger WARNING "Switching to BACKUP server" ;;
        ok2 <- _try_connect (backup_url s) ;;
        if ok2 then ret true else ret false).

(** Public API. *)
Definition connect : M unit := _start_worker.

Definition send_json (data : Payload) : M unit :=
  match json_dumps data with
  | None => logger ERROR "JSON encode error"
  | Some msg =>
      _start_worker ;;
      try_except
        (s <- get ;;
         if negb (queue_full (queue s)) then put_nowait (Some msg) else ret tt)
        is_queue_full
        (fun _ => logger WARNING "WS send queue is full, dropping message")
  end.

Definition close : M unit :=
  modify (set_stop_event true) ;;
  try_except (put_nowait None) is_exception (fun _ => ret tt) ;;
  _safe_close ;;
  modify (set_connected false) ;;
  logger INFO "WebSocket closed".

(** One iteration of [_receive_loop] (entered while the stop event is
    clear), given the outcome of [self.ws.recv()]. *)
Definition receive_iteration (r : recv_outcome) : M unit :=
  s <- get ;;
  if negb (connected s) || match ws s with None => true | Some _ => false end
  then ret tt                                (* time.sleep(0.2); continue *)
  else
    try_except
      (msg <- ws_recv r ;;
       if String.eqb msg "" then ret tt       (* if not msg: continue *)
       else
         match json_loads msg with
         | None => raise JSONDecodeError
         | Some (JObj kv) =>
             if get_eq_str (dict_get "type" kv) "camera_control" then
               let action := dict_get "action" kv in
               if get_eq_str action "stop" then
                 (modify (set_camera_enabled false) ;;
                  logger INFO "Camera disabled from mobile")
               else if get_eq_str action "start" then
                 (modify (set_camera_enabled true) ;;
                  logger INFO "Camera enabled from mobile")
               else ret tt
             else ret tt
         | Some _ => raise AttributeError     (* data.get on a non-dict *)
         end)
      is_exception
      (fun e => if is_ws_closed e then modify (set_connected false)
                else logger WARNING "WS recv error").

End Methods.

(** The worker thread of [_worker_loop] re-checks [self._stop_event] at the
    top of its loop and returns when it is set. *)
Definition worker_checks_stop (s : client) : client :=
  if worker_alive s && stop_event s then set_worker_alive false s else s.

(** ** Reconnect back-off of [_worker_loop] (lines 157-170).  The delays
    are floats 1.0, 10.0 and products by 2 of these, all integral, so they
    are modelled in Z. *)
Definition _base_reconnect_delay : Z := 1.
Definition _max_reconnect_delay : Z := 10.

(** A disconnected iteration of the loop, given the result of
    [self._connect_sequence()]: the delay slept (if any) and the new
    [reconnect_delay]. *)
Definition backoff_step (reconnect_delay : Z) (connect_ok : bool)
    : option Z * Z :=
  if connect_ok then (None, _base_reconnect_delay)
  else (Some reconnect_delay,
        Z.min _max_reconnect_delay (reconnect_delay * 2)).

(** The delays slept along successive connect attempts of one run. *)
Fixpoint backoff_sleeps (reconnect_delay : Z) (outcomes : list bool)
    : list Z :=
  match outcomes with
  | [] => []
  | ok :: rest =>
      let (slept, d') := backoff_step reconnect_delay ok in
      match slept with
      | Some t => t :: backoff_sleeps d' rest
      | None => backoff_sleeps d' rest
      end
  end.

(** The schedule as the specification words it: the [k]-th consecutive
    failure since the start or the last success sleeps [min 10 (2^k)]. *)
Fixpoint spec_backoff_sleeps (k : nat) (outcomes : list bool) : list Z :=
  match outcomes with
  | [] => []
  | true :: rest => spec_backoff_sleeps 0 rest
  | false :: rest =>
      Z.min 10 (2 ^ Z.of_nat k) :: spec_backoff_sleeps (S k) rest
  end.

End WSClient.

(* ================================================================= *)
(** * Python numeric builtins on floats (modelled as rationals)       *)
(* ================================================================= *)

Module Py.
Open Scope Q_scope.

(** [min(a, b)]: returns [a] unless [b < a]. *)
Definition min (a b : Q) : Q := if Qlt_le_dec b a then b else a.

(** [max(a, b)]: returns [a] unless [a < b]. *)
Definition max (a b : Q) : Q := if Qlt_le_dec a b then b else a.

(** [int(x)] on a float: truncation toward zero. *)
Definition int (x : Q) : Z :=
  if Qlt_le_dec x 0 then (- Qfloor (- x))%Z else Qfloor x.

End Py.

(* ================================================================= *)
(** * utils/work_timer.py : the getters of WorkTimer                  *)
(* ================================================================= *)

Module WorkTimerApi.
Import WorkTimer.

Definition get_current_session_duration (self : WorkTimer) : Z :=
  Py.int (total_work_seconds self).
Definition get_total_work_seconds (self : WorkTimer) : Z :=
  Py.int (total_work_seconds self).
Definition get_total_break_seconds (self : WorkTimer) : Z :=
  Py.int (total_break_seconds self).

End WorkTimerApi.

(* ================================================================= *)
(** * utils/attention.py : class AttentionEstimator                   *)
(* ================================================================= *)

Module Attention.
Open Scope Q_scope.

(** [self.prev_attention]; the other attributes are constants set in
    [__init__]. *)
Record AttentionEstimator := mkAttention { prev_attention : Q }.

Definition __init__ : AttentionEstimator := mkAttention 0.
Definition alpha : Q := 6 # 10.
Definition w_gaze : Q := 5 # 10.
Definition w_head : Q := 3 # 10.
Definition w_eyes : Q := 2 # 10.

(** [estimate(face_detected, gaze_centered, head_stable, eyes_open_prob)]:
    the returned score and the updated object. *)
Definition estimate (face_detected : bool) (gaze_centered head_stable
    eyes_open_prob : Q) (self : AttentionEstimator)
    : Q * AttentionEstimator :=
  let raw := if face_detected
             then w_gaze * gaze_centered + w_head * head_stable
                  + w_eyes * eyes_open_prob
             else 0 in
  let smoothed := alpha * raw + (1 - alpha) * prev_attention self in
  (Py.max 0 (Py.min 100 (smoothed * 100)), mkAttention smoothed).

End Attention.

(* ================================================================= *)
(** * utils/drowsiness.py : class DrowsinessDetector                  *)
(* ================================================================= *)

Module Drowsiness.
Open Scope Q_scope.

Record DrowsinessDetector := mkDrowsiness {
  eye_closed_threshold_sec : Q;
  _eye_closed_start : option Q;
  is_drowsy : bool
}.

Definition __init__ (eye_closed_threshold_sec : Q) : DrowsinessDetector :=
  mkDrowsiness eye_closed_threshold_sec None false.

(** [update(eyes_open_prob)]; [now] is [time.time()] at the call. *)
Definition update (now eyes_open_prob : Q) (self : DrowsinessDetector)
    : DrowsinessDetector :=
  if Qlt_le_dec eyes_open_prob (3 # 10) then
    match _eye_closed_start self with
    | None => mkDrowsiness (eye_closed_threshold_sec self) (Some now)
                (is_drowsy self)
    | Some start =>
        if Qle_bool (eye_closed_threshold_sec self) (now - start)
        then mkDrowsiness (eye_closed_threshold_sec self) (Some start) true
        else self
    end
  else mkDrowsiness (eye_closed_threshold_sec self) None false.

(** Successive calls: the clock reading and [eyes_open_prob] of each. *)
Fixpoint run (calls : list (Q * Q)) (self : DrowsinessDetector)
    : DrowsinessDetector :=
  match calls with
  | [] => self
  | (now, p) :: rest => run rest (update now p self)
  end.

End Drowsiness.

(* ================================================================= *)
(** * utils/detection.py : the numeric part of FaceDetector           *)
(* ================================================================= *)

Module Detection.
Open Scope Q_scope.

(** [_ear_to_prob(ear)]. *)
Definition _ear_to_prob (ear : Q) : Q :=
  let closed_ear := 15 # 100 in
  let open_ear := 35 # 100 in
  let prob := (ear - closed_ear) / (open_ear - closed_ear) in
  Py.max 0 (Py.min 1 prob).

(** [gaze_centered] of [process_frame] from the face center (the means of
    the landmark coordinates). *)
Definition gaze_centered (face_center_x face_center_y : Q) : Q :=
  let dx := Qabs (face_center_x - (1 # 2)) in
  let dy := Qabs (face_center_y - (1 # 2)) in
  let dist := dx + dy in
  Py.max 0 (1 - dist * 2).

(** The head-stability attributes of a FaceDetector. *)
Record HeadTracker := mkHeadTracker {
  _prev_center : option (Q * Q);
  _head_stability_ema : Q
}.

Definition head_init : HeadTracker := mkHeadTracker None 1.
Definition _ema_alpha : Q := 1 # 2.

Section HeadStability.
(** [np.linalg.norm(a - b)] for two centers. *)
Variable norm_diff : Q * Q -> Q * Q -> Q.

(** [_update_head_stability(center_xy_norm)]: returned value and state. *)
Definition _update_head_stability (center : Q * Q) (self : HeadTracker)
    : Q * HeadTracker :=
  match _prev_center self with
  | None => (1, mkHeadTracker (Some center) 1)
  | Some prev =>
      let movement := norm_diff center prev in
      let max_movement := 3 # 100 in
      let movement_norm := Py.min (movement / max_movement) 1 in
      let head_stable_instant := 1 - movement_norm in
      let ema := (1 - _ema_alpha) * _head_stability_ema self
                 + _ema_alpha * head_stable_instant in
      (Py.max 0 (Py.min 1 ema), mkHeadTracker (Some center) ema)
  end.

(** Successive frames' face centers. *)
Fixpoint run_head (centers : list (Q * Q)) (self : HeadTracker)
    : list Q * HeadTracker :=
  match centers with
  | [] => ([], self)
  | c :: rest =>
      let (v, self') := _update_head_stability c self in
      let (vs, self'') := run_head rest self' in
      (v :: vs, self'')
  end.
End HeadStability.

End Detection.

(* ================================================================= *)
(** * utils/posture.py : the manual adjustment of process_frame       *)
(* ================================================================= *)

Module Posture.
Open Scope Q_scope.

Definition good_label : string := "TUP".

(** What [process_frame] reads from a detected pose: the classifier's
    [raw_label], the nose z and the two shoulders' y. *)
Record PoseReading := mkPoseReading {
  raw_label : string;
  nose_z : Q;
  left_sh_y : Q;
  right_sh_y : Q
}.

(** [process_frame]: [None] when [results.pose_landmarks] is empty. *)
Definition process_frame (results : option PoseReading) : string * bool :=
  match results with
  | None => ("NO_PERSON"%string, false)
  | Some r =>
      let shoulder_diff := Qabs (left_sh_y r - right_sh_y r) in
      let final_label :=
        if Qlt_le_dec shoulder_diff (2 # 100) then "TUP"%string
        else if Qlt_le_dec (- (15 # 100)) (nose_z r) then "TUP"%string
        else raw_label r in
      (final_label, String.eqb final_label good_label)
  end.

End Posture.

(* ================================================================= *)
(** * main.py : the send gate of the frame loop                       *)
(* ================================================================= *)

Module MainLoop.
Open Scope Q_scope.

(** [if now - last_send_time >= send_interval: last_send_time = now; ...
    ws.send_json(payload)]: whether this frame sends, and the new
    [last_send_time]. *)
Definition send_gate (send_interval last_send_time now : Q) : bool * Q :=
  if Qle_bool send_interval (now - last_send_time) then (true, now)
  else (false, last_send_time).

(** The times at which frames read at [frames] send a payload. *)
Fixpoint send_times (send_interval last_send_time : Q) (frames : list Q)
    : list Q :=
  match frames with
  | [] => []
  | now :: rest =>
      let (sent, last') := send_gate send_interval last_send_time now in
      if sent then now :: send_times send_interval last' rest
      else send_times send_interval last' rest
  end.

End MainLoop.

(* ================================================================= *)
(** * utils/ws_client.py : the connected branch of _worker_loop       *)
(* ================================================================= *)

Module WSClientWorker.
Import WSClient.
Open Scope ws_scope.

Definition ping_interval : Q := 20.

Definition is_queue_empty (e : exn) : bool :=
  match e with QueueEmpty => true | _ => false end.

(** [self._queue.get(timeout=0.1)]: pops the oldest item, raises
    [queue.Empty] when nothing arrives. *)
Definition queue_get : M qitem :=
  s <- get ;;
  match queue s with
  | [] => raise QueueEmpty
  | x :: rest => modify (set_queue rest) ;; ret x
  end.

(** [_keep_alive]; [ping_ok] says whether [self.ws.ping()] returns. *)
Definition _keep_alive (ping_ok : bool) : M unit :=
  s <- get ;;
  if negb (connected s) || match ws s with None => true | Some _ => false end
  then ret tt
  else
    let now := clock s in
    if Qle_bool ping_interval (now - last_ping_time s) then
      try_except
        ((if ping_ok then ret tt else raise OtherException) ;;
         modify (set_last_ping_time now))
        is_exception
        (fun _ => logger WARNING "Ping failed" ;;
                  _safe_close ;;
                  modify (set_connected false))
    else ret tt.

(** The outcome of [self.ws.send(msg)]: returns; raises one of
    [WebSocketConnectionClosedException], [BrokenPipeError],
    [ConnectionResetError] (one handler treats the three alike, so they
    are represented by the first); or raises another exception. *)
Inductive send_outcome := SendOk | SendLost | SendFails.

Definition ws_send (o : send_outcome) : M unit :=
  match o with
  | SendOk => ret tt
  | SendLost => raise WebSocketConnectionClosedException
  | SendFails => raise OtherException
  end.

(** One pass of the [while] body of [_worker_loop] while [self.connected]
    holds (lines 172-198); the result is the message handed to
    [self.ws.send] without an exception, if any. *)
Definition worker_connected_iteration (ping_ok : bool) (o : send_outcome)
    : M (option string) :=
  try_except
    (msg <- try_except queue_get is_queue_empty (fun _ => ret None) ;;
     _keep_alive ping_ok ;;
     match msg with
     | None => ret None                                   (* continue *)
     | Some m =>
         s <- get ;;
         match ws s with
         | None => raise AttributeError          (* None.send(msg) *)
         | Some _ => ws_send o ;; ret (Some m)
         end
     end)
    is_exception
    (fun e =>
       (if is_ws_closed e then logger WARNING "Connection lost"
        else logger ERROR "WS worker error") ;;
       _safe_close ;;
       modify (set_connected false) ;;
       ret None).

Definition option_list {A} (o : option A) : list A :=
  match o with Some a => [a] | None => [] end.

(** [n] passes of the connected branch with pings and sends succeeding;
    the messages sent, in order. *)
Fixpoint worker_connected_passes (n : nat) : M (list string) :=
  match n with
  | O => ret []
  | S k =>
      d <- worker_connected_iteration true SendOk ;;
      rest <- worker_connected_passes k ;;
      ret (option_list d ++ rest)
  end.

(** The calls a client receives from its caller and its two threads. *)
Inductive client_op (Payload : Type) :=
  | OpSendJson (data : Payload)
  | OpClose
  | OpConnect
  | OpConnectSequence
  | OpWorkerPass (ping_ok : bool) (o : send_outcome)
  | OpReceive (r : recv_outcome).
Arguments OpClose {Payload}.
Arguments OpConnect {Payload}.
Arguments OpConnectSequence {Payload}.
Arguments OpWorkerPass {Payload} ping_ok o.
Arguments OpReceive {Payload} r.
Arguments OpSendJson {Payload} data.

Section Ops.
Variable Payload : Type.
Variable json_dumps : Payload -> option string.
Variable json_loads : string -> option json.
Variable create_connection : string -> option socket.

Definition exec_op (op : client_op Payload) (st : client) : client :=
  match op with
  | OpSendJson d => snd (send_json Payload json_dumps d st)
  | OpClose => snd (close st)
  | OpConnect => snd (connect st)
  | OpConnectSequence => snd (_connect_sequence create_connection st)
  | OpWorkerPass p o => snd (worker_connected_iteration p o st)
  | OpReceive r => snd (receive_iteration json_loads r st)
  end.

Fixpoint exec_ops (ops : list (client_op Payload)) (st : client) : client :=
  match ops with
  | [] => st
  | op :: rest => exec_ops rest (exec_op op st)
  end.
End Ops.

End WSClientWorker.

(* ================================================================= *)
(** * Properties of WorkTimer                                         *)
(* ================================================================= *)

Module WorkTimerProofs.
Import WorkTimer.
Open Scope Q_scope.

Example scenario_a :
  get_state (update 2 true 80 (__init__ 50 0)) = WORK /\
  total_work_seconds (update 2 true 80 (__init__ 50 0)) == 2.
Proof. split; reflexivity. Qed.

Example scenario_b :
  get_state (update 3 false 0 (__init__ 50 0)) = BREAK /\
  total_break_seconds (update 3 false 0 (__init__ 50 0)) == 3.
Proof. split; reflexivity. Qed.

(** A call of [update] stamps [now] and adds the whole delta to exactly one
    of the two totals. *)
Lemma update_step now p a t :
  _last_update_time (update now p a t) = now /\
  ((total_work_seconds (update now p a t)
      = total_work_seconds t + (now - _last_update_time t) /\
    total_break_seconds (update now p a t) = total_break_seconds t) \/
   (total_break_seconds (update now p a t)
      = total_break_seconds t + (now - _last_update_time t) /\
    total_work_seconds (update now p a t) = total_work_seconds t)).
Proof.
  unfold update; destruct p; simpl;
    [destruct (Qlt_le_dec a (attention_threshold t)) |]; simpl; auto.
Qed.

Lemma run_totals calls t :
  total_work_seconds (run calls t) + total_break_seconds (run calls t)
  == total_work_seconds t + total_break_seconds t
     + sum_deltas (_last_update_time t) calls.
Proof.
  revert t; induction calls as [|[[now p] a] rest IH]; intro t; simpl.
  - ring.
  - rewrite IH.
    destruct (WorkTimerProofs.update_step now p a t) as [Hl [[Hw Hb] | [Hb Hw]]];
      rewrite Hl, Hw, Hb; ring.
Qed.

(** C1: over every sequence of calls to [update] on a fresh tracker,
    [total_work_seconds + total_break_seconds] is the sum of the elapsed
    deltas, each call adding its whole delta to exactly one total. *)
Theorem work_break_conservation (threshold t0 : Q) (calls : list sample) :
  total_work_seconds (run calls (__init__ threshold t0))
    + total_break_seconds (run calls (__init__ threshold t0))
  == sum_deltas t0 calls /\
  (forall now p a t,
     (total_work_seconds (update now p a t)
        = total_work_seconds t + (now - _last_update_time t) /\
      total_break_seconds (update now p a t) = total_break_seconds t) \/
     (total_break_seconds (update now p a t)
        = total_break_seconds t + (now - _last_update_time t) /\
      total_work_seconds (update now p a t) = total_work_seconds t)).
Proof.
  split.
  - rewrite run_totals; simpl; ring.
  - intros now p a t; apply update_step.
Qed.

(** C2: with [is_present] true, [attention_level = attention_threshold]
    makes the call WORK and credits the delta to the work total only. *)
Theorem threshold_boundary_is_work (now a : Q) (t : WorkTimer)
    (Hthr : a == attention_threshold t) :
  state (update now true a t) = WORK /\
  total_work_seconds (update now true a t)
    = total_work_seconds t + (now - _last_update_time t) /\
  total_break_seconds (update now true a t) = total_break_seconds t.
Proof.
  unfold update; simpl.
  destruct (Qlt_le_dec a (attention_threshold t)) as [Hlt | Hle].
  - exfalso; rewrite Hthr in Hlt; apply (Qlt_irrefl _ Hlt).
  - simpl; auto.
Qed.

Lemma threshold_boundary_is_work_witness :
  50 == attention_threshold (__init__ 50 0) /\
  state (update 2 true 50 (__init__ 50 0)) = WORK.
Proof.
  split; [reflexivity |].
  apply (threshold_boundary_is_work 2 50 (__init__ 50 0)); reflexivity.
Defined.

(** C9: a fresh tracker is IDLE; every call of [update] leaves WORK or
    BREAK, so after one or more calls the state is never IDLE. *)
Theorem idle_only_before_first_update (threshold t0 : Q) :
  state (__init__ threshold t0) = IDLE /\
  (forall now p a t,
     state (update now p a t) = WORK \/ state (update now p a t) = BREAK) /\
  (forall c calls t, state (run (c :: calls) t) <> IDLE).
Proof.
  assert (Hstep : forall now p a t,
    state (update now p a t) = WORK \/ state (update now p a t) = BREAK).
  { intros now p a t; unfold update; destruct p; simpl;
      [destruct (Qlt_le_dec a (attention_threshold t)) |]; simpl; auto. }
  split; [reflexivity | split; [exact Hstep |]].
  intros c calls; revert c; induction calls as [|c' rest IH]; intros c t.
  - destruct c as [[now p] a]; simpl.
    destruct (Hstep now p a t) as [H | H]; rewrite H; discriminate.
  - destruct c as [[now p] a]; apply (IH c').
Qed.

End WorkTimerProofs.

(* ================================================================= *)
(** * Properties of WSClient                                          *)
(* ================================================================= *)

Module WSClientProofs.
Import WSClient.
Open Scope string_scope.
Open Scope list_scope.
Open Scope ws_scope.

Lemma backoff_doubling_capped (k : nat) :
  Z.min _max_reconnect_delay (Z.min 10 (2 ^ Z.of_nat k) * 2)
  = Z.min 10 (2 ^ Z.of_nat (S k)).
Proof.
  unfold _max_reconnect_delay.
  rewrite Nat2Z.inj_succ, Z.pow_succ_r by lia.
  assert (0 < 2 ^ Z.of_nat k)%Z by (apply Z.pow_pos_nonneg; lia).
  destruct (Z.le_gt_cases 10 (2 ^ Z.of_nat k)); lia.
Qed.

Lemma backoff_sleeps_spec (k : nat) (outcomes : list bool) :
  backoff_sleeps (Z.min 10 (2 ^ Z.of_nat k)) outcomes
  = spec_backoff_sleeps k outcomes.
Proof.
  revert k; induction outcomes as [|ok rest IH]; intro k; [reflexivity |].
  destruct ok; simpl.
  - apply (IH 0%nat).
  - f_equal; rewrite backoff_doubling_capped; apply IH.
Qed.

(** C7: along the successive results of [_connect_sequence] in one run of
    the worker, the delays slept are [min 10 (2^k)] for the [k]-th
    consecutive failure since the start or the last success: 1, 2, 4, 8,
    10, 10, ... and a success resets the next delay to 1. *)
Theorem reconnect_backoff_schedule (outcomes : list bool) :
  backoff_sleeps _base_reconnect_delay outcomes
    = spec_backoff_sleeps 0 outcomes /\
  backoff_sleeps _base_reconnect_delay
    [false; false; false; false; false; false; false]
    = [1; 2; 4; 8; 10; 10; 10]%Z /\
  (forall d, backoff_step d true = (None, _base_reconnect_delay)).
Proof.
  split; [| split; [reflexivity | reflexivity]].
  apply (backoff_sleeps_spec 0 outcomes).
Qed.

Ltac unfold_m :=
  cbv beta iota zeta delta [bind ret get modify raise try_except logger
    put_nowait ws_close is_exception is_queue_full is_ws_closed] in *.

(** A client as [__init__] builds it, for the concrete runs below. *)
Definition demo_client : client := __init__ "ws://primary" "ws://backup" 0.

(** The same client with a full send queue. *)
Definition demo_full_client : client :=
  set_queue (repeat (Some "old"%string) maxsize) demo_client.

Lemma send_json_effect (Payload : Type) (json_dumps : Payload -> option string)
    (data : Payload) (st : client) :
  send_json Payload json_dumps data st =
  match json_dumps data with
  | None => (Ok tt, add_log (ERROR, "JSON encode error"%string) st)
  | Some msg =>
      let st1 := snd (_start_worker st) in
      (Ok tt,
       if queue_full (queue st1) then st1
       else set_queue (queue st1 ++ [Some msg]) st1)
  end.
Proof.
  unfold send_json; destruct (json_dumps data) as [msg |]; [| reflexivity].
  unfold _start_worker; unfold_m.
  destruct (worker_alive st); simpl;
    destruct (queue_full (queue _)) eqn:Hf; simpl; try rewrite Hf; reflexivity.
Qed.

(** C3 (defect): on a full queue, [send_json] keeps the queue as it was
    (the new message is the one dropped, the bound holds) but writes no
    warning: the [queue.Full] handler is unreachable behind [full()]. *)
Theorem send_json_full_queue_silent_drop :
  queue (snd (send_json string (@Some string) "new" demo_full_client))
    = queue demo_full_client /\
  log (snd (send_json string (@Some string) "new" demo_full_client))
    = log demo_full_client.
Proof. split; reflexivity. Qed.

(** C4: [send_json] never raises; when [json.dumps] fails it only logs an
    error (the queue and everything else are unchanged), and in every case
    it performs no socket operation. *)
Theorem send_json_never_raises (Payload : Type)
    (json_dumps : Payload -> option string) (data : Payload) (st : client) :
  fst (send_json Payload json_dumps data st) = Ok tt /\
  ws (snd (send_json Payload json_dumps data st)) = ws st /\
  connected (snd (send_json Payload json_dumps data st)) = connected st /\
  sock_closes (snd (send_json Payload json_dumps data st)) = sock_closes st /\
  (json_dumps data = None ->
   snd (send_json Payload json_dumps data st)
     = add_log (ERROR, "JSON encode error"%string) st).
Proof.
  rewrite send_json_effect.
  destruct (json_dumps data) as [msg |].
  - unfold _start_worker; unfold_m.
    destruct (worker_alive st); simpl;
      destruct (queue_full _); simpl; repeat split; discriminate.
  - simpl; repeat split; reflexivity.
Qed.

Lemma send_json_never_raises_witness :
  (@None string = None) /\
  snd (send_json string (fun _ => None) "x" demo_client)
    = add_log (ERROR, "JSON encode error"%string) demo_client.
Proof.
  split; [reflexivity |].
  apply (send_json_never_raises string (fun _ => None) "x" demo_client).
  reflexivity.
Defined.

Lemma close_effect (st : client) :
  close st =
  (Ok tt,
   add_log (INFO, "WebSocket closed")
     (set_connected false
        (let s1 := set_stop_event true st in
         let s2 := if queue_full (queue st) then s1
                   else set_queue (queue st ++ [None]) s1 in
         match ws st with
         | Some sk => set_ws None (add_sock_close (sock_id sk) s2)
         | None => s2
         end))).
Proof.
  unfold close, _safe_close; unfold_m; simpl.
  destruct (queue_full (queue st)); simpl;
    destruct (ws st) as [sk |]; simpl; try reflexivity;
    destruct (close_raises sk); reflexivity.
Qed.

Lemma close_fields (st : client) :
  fst (close st) = Ok tt /\
  stop_event (snd (close st)) = true /\
  ws (snd (close st)) = None /\
  connected (snd (close st)) = false /\
  sock_closes (snd (close st))
    = match ws st with
      | Some sk => sock_closes st ++ [sock_id sk]
      | None => sock_closes st
      end /\
  queue (snd (close st))
    = (if queue_full (queue st) then queue st else queue st ++ [None]) /\
  log (snd (close st)) = log st ++ [(INFO, "WebSocket closed")] /\
  camera_enabled (snd (close st)) = camera_enabled st /\
  active_url (snd (close st)) = active_url st /\
  worker_alive (snd (close st)) = worker_alive st.
Proof.
  rewrite close_effect; simpl.
  destruct (queue_full (queue st)), (ws st) eqn:E; simpl; repeat split;
    exact E.
Qed.

(** C5 (as stated it fails): a second [close] on a never-connected client
    does not leave the state unchanged: it enqueues one more [None]. *)
Lemma close_twice_changes_queue :
  snd (close (snd (close demo_client))) <> snd (close demo_client).
Proof.
  intro H; apply (f_equal (fun s => List.length (queue s))) in H.
  vm_compute in H; discriminate.
Qed.

(** C5 (amended): [close] never raises, whatever the state: each call sets
    the stop event, closes a live socket and drops its handle, clears
    [connected], logs one line and enqueues a [None] when the queue has
    room.  A repeated call raises nothing, closes no socket and leaves the
    stop event, handle and [connected] as they were; it only adds one more
    [None] (if room) and one more log line. *)
Theorem close_never_raises_repeatable (st : client) :
  fst (close st) = Ok tt /\
  stop_event (snd (close st)) = true /\
  ws (snd (close st)) = None /\
  connected (snd (close st)) = false /\
  sock_closes (snd (close st))
    = match ws st with
      | Some sk => sock_closes st ++ [sock_id sk]
      | None => sock_closes st
      end /\
  queue (snd (close st))
    = (if queue_full (queue st) then queue st else queue st ++ [None]) /\
  log (snd (close st)) = log st ++ [(INFO, "WebSocket closed")] /\
  fst (close (snd (close st))) = Ok tt /\
  stop_event (snd (close (snd (close st)))) = true /\
  ws (snd (close (snd (close st)))) = None /\
  connected (snd (close (snd (close st)))) = false /\
  sock_closes (snd (close (snd (close st)))) = sock_closes (snd (close st)) /\
  queue (snd (close (snd (close st))))
    = (if queue_full (queue (snd (close st))) then queue (snd (close st))
       else queue (snd (close st)) ++ [None]) /\
  log (snd (close (snd (close st))))
    = log (snd (close st)) ++ [(INFO, "WebSocket closed")] /\
  camera_enabled (snd (close (snd (close st)))) = camera_enabled st /\
  active_url (snd (close (snd (close st)))) = active_url st /\
  worker_alive (snd (close (snd (close st)))) = worker_alive st.
Proof.
  destruct (close_fields st)
    as (H1 & H2 & H3 & H4 & H5 & H6 & H7 & H8 & H9 & H10).
  destruct (close_fields (snd (close st)))
    as (G1 & G2 & G3 & G4 & G5 & G6 & G7 & G8 & G9 & G10).
  rewrite H3 in G5.
  repeat split; try assumption; congruence.
Qed.

(** C10 (as stated it fails): [send_json] right after [close], while the
    old worker thread is still alive, neither clears the stop event nor
    starts a worker; the old worker then exits on the set stop event. *)
Lemma send_after_close_keeps_stop :
  stop_event (snd (send_json string (@Some string) "m"
                    (snd (close demo_client)))) = true /\
  worker_alive (worker_checks_stop
                  (snd (send_json string (@Some string) "m"
                          (snd (close demo_client))))) = false /\
  stop_event (worker_checks_stop
                (snd (send_json string (@Some string) "m"
                        (snd (close demo_client))))) = true.
Proof. vm_compute; repeat split. Qed.

(** C10 (amended): once the worker has seen the stop event of [close] and
    exited, [send_json] with a serializable payload clears the stop event,
    starts a new worker and enqueues the message if the queue has room, and
    [connect] also restarts the worker.  While the old worker is still
    alive, [send_json] or [connect] after [close] starts no worker and
    leaves the stop event set ([send_json] changes only the queue,
    [connect] nothing); the old worker then exits and the enqueued message
    stays queued.  In every case [send_json] after [close] enqueues the
    message when the queue has room. *)
Theorem shutdown_not_permanent (Payload : Type)
    (json_dumps : Payload -> option string) (data : Payload) (msg : string)
    (st : client) (Hser : json_dumps data = Some msg) :
  worker_alive (worker_checks_stop (snd (close st))) = false /\
  stop_event (snd (send_json Payload json_dumps data
                     (worker_checks_stop (snd (close st))))) = false /\
  worker_alive (snd (send_json Payload json_dumps data
                       (worker_checks_stop (snd (close st))))) = true /\
  queue (snd (send_json Payload json_dumps data
                (worker_checks_stop (snd (close st)))))
    = (let q := queue (snd (close st)) in
       if queue_full q then q else q ++ [Some msg]) /\
  stop_event (snd (connect (worker_checks_stop (snd (close st))))) = false /\
  worker_alive (snd (connect (worker_checks_stop (snd (close st))))) = true /\
  (worker_alive st = true ->
   stop_event (snd (send_json Payload json_dumps data (snd (close st))))
     = true /\
   snd (send_json Payload json_dumps data (snd (close st)))
     = (let q := queue (snd (close st)) in
        if queue_full q then snd (close st)
        else set_queue (q ++ [Some msg]) (snd (close st))) /\
   snd (connect (snd (close st))) = snd (close st) /\
   worker_alive (worker_checks_stop
     (snd (send_json Payload json_dumps data (snd (close st))))) = false /\
   queue (worker_checks_stop
     (snd (send_json Payload json_dumps data (snd (close st)))))
     = queue (snd (send_json Payload json_dumps data (snd (close st))))) /\
  queue (snd (send_json Payload json_dumps data (snd (close st))))
    = (let q := queue (snd (close st)) in
       if queue_full q then q else q ++ [Some msg]).
Proof.
  rewrite !send_json_effect, Hser.
  destruct (close_fields st) as (_ & H2 & _ & _ & _ & _ & _ & _ & _ & H10).
  set (s1 := snd (close st)) in *.
  assert (Hw : worker_alive (worker_checks_stop s1) = false).
  { unfold worker_checks_stop; rewrite H2, andb_true_r.
    destruct (worker_alive s1) eqn:E; [reflexivity | exact E]. }
  assert (Hq : queue (worker_checks_stop s1) = queue s1).
  { unfold worker_checks_stop; destruct (worker_alive s1 && stop_event s1);
      reflexivity. }
  assert (Hs0 : forall s, queue (snd (_start_worker s)) = queue s).
  { intro s; unfold _start_worker; unfold_m.
    destruct (worker_alive s); reflexivity. }
  assert (Hlast : queue
      (let st1 := snd (_start_worker s1) in
       if queue_full (queue st1) then st1
       else set_queue (queue st1 ++ [Some msg]) st1)
      = (if queue_full (queue s1) then queue s1
         else queue s1 ++ [Some msg])).
  { cbv zeta; rewrite Hs0; destruct (queue_full (queue s1));
      cbv beta iota; rewrite ?Hs0; reflexivity. }
  assert (Hsw : snd (_start_worker (worker_checks_stop s1))
                = set_worker_alive true
                    (set_stop_event false (worker_checks_stop s1))).
  { unfold _start_worker; unfold_m; rewrite Hw; reflexivity. }
  split; [exact Hw |].
  unfold connect; rewrite Hsw; cbv zeta; rewrite ?Hsw.
  cbn [fst snd queue set_worker_alive set_stop_event set_queue stop_event
       worker_alive]; rewrite !Hq.
  do 3 (split; [destruct (queue_full (queue s1));
                 cbn [fst snd queue set_worker_alive set_stop_event set_queue
                      stop_event worker_alive]; rewrite ?Hq; reflexivity |]).
  split; [reflexivity |].
  split; [reflexivity |].
  split; [| exact Hlast].
  intro Ha; rewrite <- H10 in Ha.
  assert (Hst : snd (_start_worker s1) = s1).
  { unfold _start_worker; unfold_m; rewrite Ha; reflexivity. }
  cbv zeta; rewrite Hst.
  split; [destruct (queue_full (queue s1)); exact H2 |].
  split; [reflexivity |].
  split; [reflexivity |].
  unfold worker_checks_stop.
  destruct (queue_full (queue s1)); simpl; rewrite Ha, H2; simpl;
    split; reflexivity.
Qed.

Lemma shutdown_not_permanent_witness :
  Some "m"%string = Some "m"%string /\
  worker_alive (snd (send_json string (@Some string) "m"
                       (worker_checks_stop (snd (close demo_client)))))
    = true /\
  stop_event (snd (send_json string (@Some string) "m"
                     (snd (close demo_client)))) = true.
Proof.
  split; [reflexivity |].
  split.
  - exact (proj1 (proj2 (proj2
      (shutdown_not_permanent string (@Some string) "m" "m" demo_client
         eq_refl)))).
  - exact (proj1 (proj1 (proj2 (proj2 (proj2 (proj2 (proj2 (proj2
      (shutdown_not_permanent string (@Some string) "m" "m" demo_client
         eq_refl))))))) eq_refl)).
Defined.

(** C6: in every [_connect_sequence], whatever the endpoints answer, the
    primary is tried first: the log lines of the call open with the
    attempt on the primary.  When the primary is reachable the client
    connects to it and the backup is never tried; when it is not, the
    switch to the backup and the attempt on the backup come next; and when
    the primary is unreachable and the backup reachable, the client ends
    connected to the backup, with [active_url] the backup URL, within that
    one call. *)
Theorem failover_to_backup (create_connection : string -> option socket)
    (st : client) :
  (exists rest, log (snd (_connect_sequence create_connection st))
                  = log st ++ (INFO, msg_trying (primary_url st)) :: rest) /\
  (forall sk, create_connection (primary_url st) = Some sk ->
   fst (_connect_sequence create_connection st) = Ok true /\
   connected (snd (_connect_sequence create_connection st)) = true /\
   active_url (snd (_connect_sequence create_connection st)) = primary_url st /\
   ws (snd (_connect_sequence create_connection st)) = Some sk /\
   log (snd (_connect_sequence create_connection st))
     = log st ++ [(INFO, msg_trying (primary_url st));
                  (INFO, msg_connected (primary_url st))]) /\
  (create_connection (primary_url st) = None ->
   exists rest, log (snd (_connect_sequence create_connection st))
     = log st ++ [(INFO, msg_trying (primary_url st));
                  (WARNING, msg_failed (primary_url st));
                  (WARNING, "Switching to BACKUP server");
                  (INFO, msg_trying (backup_url st))] ++ rest) /\
  (forall sk, create_connection (primary_url st) = None ->
   create_connection (backup_url st) = Some sk ->
   fst (_connect_sequence create_connection st) = Ok true /\
   connected (snd (_connect_sequence create_connection st)) = true /\
   active_url (snd (_connect_sequence create_connection st)) = backup_url st /\
   ws (snd (_connect_sequence create_connection st)) = Some sk /\
   log (snd (_connect_sequence create_connection st))
     = log st ++ [(INFO, msg_trying (primary_url st));
                  (WARNING, msg_failed (primary_url st));
                  (WARNING, "Switching to BACKUP server");
                  (INFO, msg_trying (backup_url st));
                  (INFO, msg_connected (backup_url st))]).
Proof.
  unfold _connect_sequence, _try_connect, _start_receiver; unfold_m.
  destruct (create_connection (primary_url st)) as [skp |];
    destruct (create_connection (backup_url st)) as [skb |]; simpl;
    destruct (ws st) as [old |]; simpl;
    try destruct (close_raises old); simpl;
    destruct (receiver_alive st); simpl; rewrite <- ?app_assoc; simpl.
  all: split; [eexists; reflexivity |].
  all: split; [intros sk Hs; try discriminate;
               injection Hs as <-; repeat split |].
  all: split; [intros Hn; try discriminate; eexists; reflexivity |].
  all: intros sk Hn Hs; try discriminate;
    injection Hs as <-; repeat split.
Qed.

Lemma failover_to_backup_witness :
  (fun u => if String.eqb u "ws://backup" then Some (mkSocket 7 false)
            else None) (primary_url demo_client) = None /\
  active_url (snd (_connect_sequence
    (fun u => if String.eqb u "ws://backup" then Some (mkSocket 7 false)
              else None) demo_client)) = "ws://backup".
Proof.
  split; [reflexivity |].
  exact (proj1 (proj2 (proj2
    (proj2 (proj2 (proj2
      (failover_to_backup
         (fun u => if String.eqb u "ws://backup" then Some (mkSocket 7 false)
                   else None) demo_client)))
      (mkSocket 7 false) eq_refl eq_refl)))).
Defined.

(** A connected client with a live socket, for the receiver runs. *)
Definition demo_connected_client : client :=
  set_connected true (set_ws (Some (mkSocket 1 false)) demo_client).

(** Whether an inbound JSON object is a camera command the loop acts on. *)
Definition is_camera_command (kv : list (string * json)) : bool :=
  get_eq_str (dict_get "type" kv) "camera_control" &&
  (get_eq_str (dict_get "action" kv) "stop" ||
   get_eq_str (dict_get "action" kv) "start").

Lemma receive_iteration_text (json_loads : string -> option json)
    (st : client) (msg : string)
    (Hc : connected st = true) (Hws : ws st <> None) :
  receive_iteration json_loads (RecvText msg) st =
  (Ok tt,
   if String.eqb msg "" then st
   else match json_loads msg with
        | Some (JObj kv) =>
            if get_eq_str (dict_get "type" kv) "camera_control" then
              if get_eq_str (dict_get "action" kv) "stop" then
                add_log (INFO, "Camera disabled from mobile")
                  (set_camera_enabled false st)
              else if get_eq_str (dict_get "action" kv) "start" then
                add_log (INFO, "Camera enabled from mobile")
                  (set_camera_enabled true st)
              else st
            else st
        | _ => add_log (WARNING, "WS recv error") st
        end).
Proof.
  unfold receive_iteration, ws_recv; unfold_m; rewrite Hc; simpl.
  destruct (ws st) as [sk |]; [simpl | contradiction].
  destruct (String.eqb msg ""); [reflexivity |].
  destruct (json_loads msg) as [[| | | | | kv] |]; try reflexivity.
  destruct (get_eq_str (dict_get "type" kv) "camera_control"); [| reflexivity].
  destruct (get_eq_str (dict_get "action" kv) "stop"); [reflexivity |].
  destruct (get_eq_str (dict_get "action" kv) "start"); reflexivity.
Qed.

(** C8 (as stated it fails): inbound text that is not JSON is not ignored
    silently: the client's log gains a "WS recv error" warning. *)
Lemma non_json_inbound_logs_warning :
  log (snd (receive_iteration (fun _ => None) (RecvText "hello")
              demo_connected_client))
    <> log demo_connected_client.
Proof. vm_compute; discriminate. Qed.

(** C8 (amended): one receive of a text message on a live connection
    raises nothing out of the loop.  An empty message changes nothing; a
    JSON object with type "camera_control" and action "stop" (or "start")
    sets [camera_enabled] to false (true) and logs one info line; any other
    JSON object changes nothing; text that is not JSON, or JSON that is not
    an object, only appends a "WS recv error" warning to the log. *)
Theorem receive_camera_control (json_loads : string -> option json)
    (st : client) (msg : string)
    (Hc : connected st = true) (Hws : ws st <> None) :
  fst (receive_iteration json_loads (RecvText msg) st) = Ok tt /\
  (msg = "" -> snd (receive_iteration json_loads (RecvText msg) st) = st) /\
  (forall kv, msg <> "" -> json_loads msg = Some (JObj kv) ->
   get_eq_str (dict_get "type" kv) "camera_control" = true ->
   get_eq_str (dict_get "action" kv) "stop" = true ->
   snd (receive_iteration json_loads (RecvText msg) st)
     = add_log (INFO, "Camera disabled from mobile")
         (set_camera_enabled false st)) /\
  (forall kv, msg <> "" -> json_loads msg = Some (JObj kv) ->
   get_eq_str (dict_get "type" kv) "camera_control" = true ->
   get_eq_str (dict_get "action" kv) "start" = true ->
   snd (receive_iteration json_loads (RecvText msg) st)
     = add_log (INFO, "Camera enabled from mobile")
         (set_camera_enabled true st)) /\
  (forall kv, msg <> "" -> json_loads msg = Some (JObj kv) ->
   is_camera_command kv = false ->
   snd (receive_iteration json_loads (RecvText msg) st) = st) /\
  (msg <> "" ->
   (forall kv, json_loads msg <> Some (JObj kv)) ->
   snd (receive_iteration json_loads (RecvText msg) st)
     = add_log (WARNING, "WS recv error") st).
Proof.
  rewrite (receive_iteration_text json_loads st msg Hc Hws); simpl.
  split; [reflexivity |].
  split; [intros ->; reflexivity |].
  assert (Hne : forall m, m <> "" -> String.eqb m "" = false)
    by (intros m Hm; apply String.eqb_neq; exact Hm).
  split; [| split; [| split]].
  - intros kv Hm Hj Ht Ha; rewrite (Hne _ Hm), Hj, Ht, Ha; reflexivity.
  - intros kv Hm Hj Ht Ha; rewrite (Hne _ Hm), Hj, Ht, Ha.
    (* "stop" and "start" are different strings *)
    destruct (get_eq_str (dict_get "action" kv) "stop") eqn:Hs;
      [| reflexivity].
    unfold get_eq_str in Hs, Ha.
    destruct (dict_get "action" kv) as [[| | | s | |] |]; try discriminate.
    apply String.eqb_eq in Hs, Ha; subst; discriminate.
  - intros kv Hm Hj Hcmd; rewrite (Hne _ Hm), Hj.
    unfold is_camera_command in Hcmd.
    destruct (get_eq_str (dict_get "type" kv) "camera_control"); [| reflexivity].
    simpl in Hcmd; apply orb_false_iff in Hcmd as [-> ->]; reflexivity.
  - intros Hm Hnot; rewrite (Hne _ Hm).
    destruct (json_loads msg) as [[| | | | | kv] |]; try reflexivity.
    exfalso; exact (Hnot kv eq_refl).
Qed.

Lemma receive_camera_control_witness :
  connected demo_connected_client = true /\
  camera_enabled (snd (receive_iteration
    (fun _ => Some (JObj [("type", JStr "camera_control");
                          ("action", JStr "stop")]))
    (RecvText "cmd") demo_connected_client)) = false.
Proof.
  split; [reflexivity |].
  destruct (receive_camera_control
    (fun _ => Some (JObj [("type", JStr "camera_control");
                          ("action", JStr "stop")]))
    demo_connected_client "cmd" eq_refl ltac:(discriminate))
    as (_ & _ & Hstop & _).
  rewrite (Hstop [("type", JStr "camera_control"); ("action", JStr "stop")]
             ltac:(discriminate) eq_refl eq_refl eq_refl).
  reflexivity.
Defined.

End WSClientProofs.

(* ================================================================= *)
(** * Further properties of the session timer and the signal code     *)
(* ================================================================= *)

Module WorkTimerMore.
Import WorkTimer WorkTimerApi.
Open Scope Q_scope.

(** Clock readings that never go backwards, starting after [last]. *)
Fixpoint clock_monotone (last : Q) (calls : list sample) : Prop :=
  match calls with
  | [] => True
  | (now, _, _) :: rest => last <= now /\ clock_monotone now rest
  end.

Lemma update_threshold now p a t :
  attention_threshold (update now p a t) = attention_threshold t.
Proof.
  unfold update; destruct p; simpl;
    [destruct (Qlt_le_dec a (attention_threshold t)) |]; reflexivity.
Qed.

Lemma run_app c1 c2 t : run (c1 ++ c2) t = run c2 (run c1 t).
Proof. revert t; induction c1 as [|[[n p] a] r IH]; intro t; simpl; auto. Qed.

Lemma run_monotone calls t :
  clock_monotone (_last_update_time t) calls ->
  total_work_seconds t <= total_work_seconds (run calls t) /\
  total_break_seconds t <= total_break_seconds (run calls t).
Proof.
  revert t; induction calls as [|[[now p] a] rest IH]; intros t Hm; simpl.
  - split; apply Qle_refl.
  - destruct Hm as [Hle Hm].
    destruct (WorkTimerProofs.update_step now p a t) as [Hl [[Hw Hb] | [Hb Hw]]];
    rewrite <- Hl in Hm; destruct (IH _ Hm) as [IHw IHb];
    rewrite Hw, Hb in *; split; lra.
Qed.

Lemma run_monotone_split c1 c2 t :
  clock_monotone (_last_update_time t) (c1 ++ c2) ->
  clock_monotone (_last_update_time (run c1 t)) c2.
Proof.
  revert t; induction c1 as [|[[now p] a] rest IH]; intros t Hm; simpl in *.
  - exact Hm.
  - destruct Hm as [_ Hm]; apply IH.
    destruct (WorkTimerProofs.update_step now p a t) as [Hl _]; rewrite Hl; exact Hm.
Qed.

Lemma py_int_nonneg_mono x y : 0 <= x -> x <= y -> (0 <= Py.int x <= Py.int y)%Z.
Proof.
  intros H0 Hxy; unfold Py.int.
  destruct (Qlt_le_dec x 0); [lra |].
  destruct (Qlt_le_dec y 0); [lra |].
  split.
  - change 0%Z with (Qfloor 0); apply Qfloor_resp_le; exact H0.
  - apply Qfloor_resp_le; exact Hxy.
Qed.

(** With a clock that never goes backwards, both totals of a fresh tracker
    stay non-negative and never decrease, and so do the integer seconds
    reported by [get_total_work_seconds] and [get_total_break_seconds]. *)
Theorem totals_monotone (threshold t0 : Q) (c1 c2 : list sample)
    (Hmono : clock_monotone t0 (c1 ++ c2)) :
  0 <= total_work_seconds (run c1 (__init__ threshold t0)) /\
  total_work_seconds (run c1 (__init__ threshold t0))
    <= total_work_seconds (run (c1 ++ c2) (__init__ threshold t0)) /\
  0 <= total_break_seconds (run c1 (__init__ threshold t0)) /\
  total_break_seconds (run c1 (__init__ threshold t0))
    <= total_break_seconds (run (c1 ++ c2) (__init__ threshold t0)) /\
  (0 <= get_total_work_seconds (run c1 (__init__ threshold t0))
     <= get_total_work_seconds (run (c1 ++ c2) (__init__ threshold t0)))%Z /\
  (0 <= get_total_break_seconds (run c1 (__init__ threshold t0))
     <= get_total_break_seconds (run (c1 ++ c2) (__init__ threshold t0)))%Z.
Proof.
  assert (H1 := run_monotone c1 (__init__ threshold t0)).
  assert (Hm1 : clock_monotone t0 c1).
  { clear H1; revert t0 Hmono; induction c1 as [|[[n p] a] r IH];
      simpl; intros t0 H; [exact I | destruct H as [H H']; split; auto]. }
  specialize (H1 Hm1); simpl in H1.
  assert (H2 := run_monotone c2 (run c1 (__init__ threshold t0))
                  (run_monotone_split c1 c2 (__init__ threshold t0) Hmono)).
  rewrite <- run_app in H2.
  destruct H1 as [Hw1 Hb1], H2 as [Hw2 Hb2].
  unfold get_total_work_seconds, get_total_break_seconds.
  repeat split; try assumption;
    try apply (py_int_nonneg_mono _ _ Hw1 Hw2);
    try apply (py_int_nonneg_mono _ _ Hb1 Hb2).
Qed.

Lemma totals_monotone_witness :
  clock_monotone 0 ([(1, true, 80); (3, false, 0)] ++ [(4, true, 10)]) /\
  get_total_work_seconds (run [(1, true, 80); (3, false, 0)]
                            (__init__ 50 0)) = 1%Z.
Proof.
  split; [simpl; repeat split; discriminate || reflexivity |].
  destruct (totals_monotone 50 0 [(1, true, 80); (3, false, 0)]
              [(4, true, 10)] ltac:(simpl; repeat split; discriminate))
    as (_ & _ & _ & _ & _ & _).
  reflexivity.
Defined.

(** If the user is absent on every call, the work total never moves (a
    fresh tracker reports 0 work seconds); if present and at or above the
    threshold on every call, the break total never moves. *)
Theorem absent_or_attentive_runs (calls : list sample) (t : WorkTimer) :
  (Forall (fun c : sample => snd (fst c) = false) calls ->
   total_work_seconds (run calls t) = total_work_seconds t) /\
  (Forall (fun c : sample =>
             snd (fst c) = true /\ attention_threshold t <= snd c) calls ->
   total_break_seconds (run calls t) = total_break_seconds t).
Proof.
  split.
  - revert t; induction calls as [|[[now p] a] rest IH]; intros t H;
      [reflexivity |].
    inversion H as [|? ? Hp Hr]; subst; simpl in Hp; subst; simpl.
    rewrite (IH _ Hr); reflexivity.
  - revert t; induction calls as [|[[now p] a] rest IH]; intros t H;
      [reflexivity |].
    inversion H as [|? ? [Hp Ha] Hr]; subst; simpl in Hp, Ha; subst; simpl.
    rewrite IH.
    + unfold update; simpl.
      destruct (Qlt_le_dec a (attention_threshold t)); [lra | reflexivity].
    + rewrite update_threshold; exact Hr.
Qed.

Lemma absent_or_attentive_runs_witness :
  Forall (fun c : sample => snd (fst c) = false) [(1, false, 90); (2, false, 0)] /\
  get_total_work_seconds (run [(1, false, 90); (2, false, 0)] (__init__ 50 0)) = 0%Z.
Proof.
  split; [repeat constructor |].
  unfold get_total_work_seconds.
  rewrite (proj1 (absent_or_attentive_runs [(1, false, 90); (2, false, 0)]
                    (__init__ 50 0)) ltac:(repeat constructor)).
  reflexivity.
Defined.

End WorkTimerMore.

Module SignalProofs.
Open Scope Q_scope.

Ltac py_cases :=
  unfold Py.max, Py.min in *;
  repeat match goal with
         | |- context [Qlt_le_dec ?a ?b] => destruct (Qlt_le_dec a b)
         | H : context [Qlt_le_dec ?a ?b] |- _ => destruct (Qlt_le_dec a b)
         end.

(** Attention: with every input in [0, 1] and the previous smoothed value
    in [0, 1], the new smoothed value stays in [0, 1] and the returned
    score is exactly 100 times it: the clamp to [0, 100] never cuts. *)
Theorem estimate_stays_in_range (face_detected : bool) (g h e : Q)
    (self : Attention.AttentionEstimator)
    (Hg : 0 <= g <= 1) (Hh : 0 <= h <= 1) (He : 0 <= e <= 1)
    (Hp : 0 <= Attention.prev_attention self <= 1) :
  0 <= Attention.prev_attention
         (snd (Attention.estimate face_detected g h e self)) <= 1 /\
  fst (Attention.estimate face_detected g h e self)
    == Attention.prev_attention
         (snd (Attention.estimate face_detected g h e self)) * 100.
Proof.
  unfold Attention.estimate, Attention.alpha, Attention.w_gaze,
    Attention.w_head, Attention.w_eyes; simpl.
  destruct face_detected; py_cases; split; try lra.
Qed.

Lemma estimate_stays_in_range_witness :
  0 <= Attention.prev_attention Attention.__init__ <= 1 /\
  fst (Attention.estimate true 1 1 1 Attention.__init__) == 60.
Proof.
  split; [simpl; lra |].
  rewrite (proj2 (estimate_stays_in_range true 1 1 1 Attention.__init__
                    ltac:(lra) ltac:(lra) ltac:(lra) ltac:(simpl; lra))).
  reflexivity.
Defined.

Fixpoint qpow (q : Q) (n : nat) : Q :=
  match n with O => 1 | S k => q * qpow q k end.

(** Attention: while no face is detected, each frame multiplies the smoothed
    value by 0.4, whatever the other inputs: after [n] such frames it is
    [0.4^n] times its value before them. *)
Theorem absent_face_decay (n : nat) (g h e : Q)
    (self : Attention.AttentionEstimator) :
  Attention.prev_attention
    (Nat.iter n (fun s => snd (Attention.estimate false g h e s)) self)
  == qpow (2 # 5) n * Attention.prev_attention self.
Proof.
  induction n as [|k IH]; simpl.
  - ring.
  - unfold Attention.alpha; rewrite IH; ring.
Qed.

(** Drowsiness: on every run from [__init__], [is_drowsy] is only set while
    an eyes-closed start time is recorded, and the threshold never
    changes. *)
Theorem drowsy_needs_closed_start (threshold : Q) (calls : list (Q * Q)) :
  (Drowsiness.is_drowsy (Drowsiness.run calls (Drowsiness.__init__ threshold))
     = true ->
   Drowsiness._eye_closed_start
     (Drowsiness.run calls (Drowsiness.__init__ threshold)) <> None) /\
  Drowsiness.eye_closed_threshold_sec
    (Drowsiness.run calls (Drowsiness.__init__ threshold)) = threshold.
Proof.
  assert (Hgen : forall d, (Drowsiness.is_drowsy d = true ->
                            Drowsiness._eye_closed_start d <> None) ->
    (Drowsiness.is_drowsy (Drowsiness.run calls d) = true ->
     Drowsiness._eye_closed_start (Drowsiness.run calls d) <> None) /\
    Drowsiness.eye_closed_threshold_sec (Drowsiness.run calls d)
      = Drowsiness.eye_closed_threshold_sec d).
  { induction calls as [|[now p] rest IH]; intros d Hd; simpl; [auto |].
    destruct (IH (Drowsiness.update now p d)) as [H1 H2].
    - unfold Drowsiness.update.
      destruct (Qlt_le_dec p (3 # 10)); simpl; [| discriminate].
      destruct (Drowsiness._eye_closed_start d) eqn:E; simpl.
      + destruct (Qle_bool _ _); simpl; [discriminate | rewrite E; auto].
      + discriminate.
    - split; [exact H1 | rewrite H2].
      unfold Drowsiness.update.
      destruct (Qlt_le_dec p (3 # 10)); [| reflexivity].
      destruct (Drowsiness._eye_closed_start d); [| reflexivity].
      destruct (Qle_bool _ _); reflexivity. }
  apply Hgen; simpl; discriminate.
Qed.

Lemma closed_run_from_start (ts : list Q) (t1 : Q) (d : Drowsiness.DrowsinessDetector)
    (Hs : Drowsiness._eye_closed_start d = Some t1)
    (ps : list Q) (Hlen : List.length ps = List.length ts)
    (Hclosed : Forall (fun p => p < 3 # 10) ps) :
  Drowsiness._eye_closed_start (Drowsiness.run (combine ts ps) d) = Some t1 /\
  Drowsiness.is_drowsy (Drowsiness.run (combine ts ps) d)
    = Drowsiness.is_drowsy d ||
      existsb (fun t => Qle_bool (Drowsiness.eye_closed_threshold_sec d)
                                 (t - t1)) ts.
Proof.
  revert d ps Hs Hlen Hclosed; induction ts as [|t rest IH];
    intros d ps Hs Hlen Hclosed.
  - destruct ps; [| discriminate]; simpl; rewrite orb_false_r; auto.
  - destruct ps as [|p ps']; [discriminate |].
    inversion Hclosed as [|? ? Hp Hps]; subst.
    simpl; unfold Drowsiness.update at 2.
    destruct (Qlt_le_dec p (3 # 10)) as [_ | Hge]; [| lra].
    rewrite Hs.
    destruct (Qle_bool (Drowsiness.eye_closed_threshold_sec d) (t - t1)) eqn:Hq.
    + destruct (IH (Drowsiness.mkDrowsiness
                      (Drowsiness.eye_closed_threshold_sec d) (Some t1) true)
                   ps' eq_refl ltac:(simpl in Hlen; lia) Hps) as [H1 H2].
      unfold Drowsiness.update in H1, H2 |- *.
      destruct (Qlt_le_dec p (3 # 10)); [| lra]; rewrite Hs, Hq in *.
      split; [exact H1 | rewrite H2; simpl; rewrite orb_true_r; reflexivity].
    + destruct (IH d ps' Hs ltac:(simpl in Hlen; lia) Hps) as [H1 H2].
      unfold Drowsiness.update in H1, H2 |- *.
      destruct (Qlt_le_dec p (3 # 10)); [| lra]; rewrite Hs, Hq in *.
      split; [exact H1 | rewrite H2; reflexivity].
Qed.

(** Drowsiness: from a detector with no closed-eyes start and not drowsy, a
    run of eyes-closed samples (probability below 0.3) at times
    [t1, t2, ...] records [t1] as the start, and the detector is drowsy
    exactly when some later sample is at least the threshold after [t1]:
    the first closed sample alone never makes it drowsy. *)
Theorem closed_eyes_run (t1 : Q) (ts : list Q) (p1 : Q) (ps : list Q)
    (d : Drowsiness.DrowsinessDetector)
    (Hnone : Drowsiness._eye_closed_start d = None)
    (Hawake : Drowsiness.is_drowsy d = false)
    (Hlen : List.length ps = List.length ts)
    (Hclosed : Forall (fun p => p < 3 # 10) (p1 :: ps)) :
  Drowsiness._eye_closed_start
    (Drowsiness.run (combine (t1 :: ts) (p1 :: ps)) d) = Some t1 /\
  Drowsiness.is_drowsy (Drowsiness.run (combine (t1 :: ts) (p1 :: ps)) d)
    = existsb (fun t => Qle_bool (Drowsiness.eye_closed_threshold_sec d)
                                 (t - t1)) ts.
Proof.
  inversion Hclosed as [|? ? Hp1 Hps]; subst.
  simpl; unfold Drowsiness.update at 2.
  destruct (Qlt_le_dec p1 (3 # 10)) as [_ | Hge]; [| lra].
  rewrite Hnone.
  destruct (closed_run_from_start ts t1
              (Drowsiness.mkDrowsiness (Drowsiness.eye_closed_threshold_sec d)
                 (Some t1) (Drowsiness.is_drowsy d)) eq_refl ps Hlen Hps)
    as [H1 H2].
  unfold Drowsiness.update in H1, H2 |- *.
  destruct (Qlt_le_dec p1 (3 # 10)); [| lra]; rewrite Hnone in *.
  split; [exact H1 | rewrite H2, Hawake; reflexivity].
Qed.

Lemma closed_eyes_run_witness :
  Drowsiness._eye_closed_start (Drowsiness.__init__ 2) = None /\
  Drowsiness.is_drowsy
    (Drowsiness.run (combine [0; 1; 2] [1 # 10; 0; 2 # 10])
       (Drowsiness.__init__ 2)) = true.
Proof.
  split; [reflexivity |].
  rewrite (proj2 (closed_eyes_run 0 [1; 2] (1 # 10) [0; 2 # 10]
                    (Drowsiness.__init__ 2) eq_refl eq_refl eq_refl
                    ltac:(repeat constructor; reflexivity))).
  reflexivity.
Defined.

End SignalProofs.

Module DetectionProofs.
Open Scope Q_scope.
Import SignalProofs.

(** [_ear_to_prob]: the probability is in [0, 1], is 0 for an eye aspect
    ratio at or below 0.15, 1 at or above 0.35, and never decreases as the
    ratio grows. *)
Theorem ear_to_prob_clamped (ear : Q) :
  0 <= Detection._ear_to_prob ear <= 1 /\
  (ear <= 15 # 100 -> Detection._ear_to_prob ear == 0) /\
  (35 # 100 <= ear -> Detection._ear_to_prob ear == 1) /\
  (forall ear', ear <= ear' ->
   Detection._ear_to_prob ear <= Detection._ear_to_prob ear').
Proof.
  assert (Hdiv : forall x, (x - (15 # 100)) / ((35 # 100) - (15 # 100))
                           == 5 * (x - (15 # 100)))
    by (intro x; field).
  unfold Detection._ear_to_prob; cbv zeta.
  assert (H1 := Hdiv ear).
  set (p := (ear - (15 # 100)) / ((35 # 100) - (15 # 100))) in *.
  clearbody p.
  split; [py_cases; lra |].
  split; [intro H; py_cases; lra |].
  split; [intro H; py_cases; lra |].
  intros ear' H.
  assert (H2 := Hdiv ear').
  set (p' := (ear' - (15 # 100)) / ((35 # 100) - (15 # 100))) in *.
  clearbody p'.
  py_cases; lra.
Qed.

Lemma Qabs_zero_iff x : Qabs x == 0 <-> x == 0.
Proof.
  split; intro H.
  - apply (Qabs_case x (fun y => y == 0 -> x == 0)); intros; lra.
  - rewrite H; reflexivity.
Qed.

(** [gaze_centered]: always in [0, 1], and equal to 1 exactly when the
    face center is the frame center (0.5, 0.5). *)
Theorem gaze_centered_range (cx cy : Q) :
  0 <= Detection.gaze_centered cx cy <= 1 /\
  (Detection.gaze_centered cx cy == 1 <-> cx == 1 # 2 /\ cy == 1 # 2).
Proof.
  unfold Detection.gaze_centered, Py.max; cbv zeta.
  assert (Hx := Qabs_nonneg (cx - (1 # 2))).
  assert (Hy := Qabs_nonneg (cy - (1 # 2))).
  assert (Zx := Qabs_zero_iff (cx - (1 # 2))).
  assert (Zy := Qabs_zero_iff (cy - (1 # 2))).
  set (ax := Qabs (cx - (1 # 2))) in *.
  set (ay := Qabs (cy - (1 # 2))) in *.
  destruct (Qlt_le_dec 0 (1 - (ax + ay) * 2)) as [Hpos | Hneg].
  - split; [lra |]; split.
    + intro H.
      assert (Ax : ax == 0) by lra; assert (Ay : ay == 0) by lra.
      apply Zx in Ax; apply Zy in Ay; split; lra.
    + intros [H1 H2].
      assert (Ax : ax == 0) by (apply Zx; lra).
      assert (Ay : ay == 0) by (apply Zy; lra).
      lra.
  - split; [lra |]; split.
    + intro H; lra.
    + intros [H1 H2].
      assert (Ax : ax == 0) by (apply Zx; lra).
      assert (Ay : ay == 0) by (apply Zy; lra).
      lra.
Qed.

(** [_update_head_stability]: when the distance function is non-negative
    (a norm) and the stored average is in [0, 1], the first frame returns 1
    and resets the average to 1; later frames return exactly the new
    average (the clamp never cuts), which stays in [0, 1]; a frame with no
    movement moves the average halfway to 1. *)
Theorem head_stability_step (norm_diff : Q * Q -> Q * Q -> Q)
    (Hnorm : forall a b, 0 <= norm_diff a b)
    (c : Q * Q) (self : Detection.HeadTracker)
    (Hema : 0 <= Detection._head_stability_ema self <= 1) :
  0 <= Detection._head_stability_ema
         (snd (Detection._update_head_stability norm_diff c self)) <= 1 /\
  fst (Detection._update_head_stability norm_diff c self)
    == Detection._head_stability_ema
         (snd (Detection._update_head_stability norm_diff c self)) /\
  Detection._prev_center
    (snd (Detection._update_head_stability norm_diff c self)) = Some c /\
  (Detection._prev_center self = None ->
   fst (Detection._update_head_stability norm_diff c self) == 1) /\
  (forall p, Detection._prev_center self = Some p -> norm_diff c p == 0 ->
   Detection._head_stability_ema
     (snd (Detection._update_head_stability norm_diff c self))
   == (Detection._head_stability_ema self + 1) * (1 # 2)).
Proof.
  unfold Detection._update_head_stability, Detection._ema_alpha.
  destruct (Detection._prev_center self) as [p |] eqn:Ep; simpl.
  - assert (Hn := Hnorm c p).
    assert (Hd : norm_diff c p / (3 # 100) == (100 # 3) * norm_diff c p)
      by field.
    set (mv := norm_diff c p / (3 # 100)) in *; clearbody mv.
    split; [py_cases; lra |].
    split; [py_cases; lra |].
    split; [reflexivity |].
    split; [discriminate |].
    intros p' Hp' H0; injection Hp' as <-.
    py_cases; lra.
  - repeat split; try lra; try reflexivity; discriminate.
Qed.

Lemma head_stability_step_witness :
  0 <= Detection._head_stability_ema Detection.head_init <= 1 /\
  fst (Detection._update_head_stability (fun _ _ => 0) (1 # 2, 1 # 2)
         Detection.head_init) == 1.
Proof.
  split; [simpl; lra |].
  exact (proj1 (proj2 (proj2 (proj2
    (head_stability_step (fun _ _ => 0) (fun _ _ => Qle_refl 0) (1 # 2, 1 # 2)
       Detection.head_init ltac:(simpl; lra)))))
    eq_refl).
Defined.

(** Posture: with no pose the result is ("NO_PERSON", false); otherwise
    [posture_ok] holds exactly when the final label is "TUP", the final
    label is "TUP" or the classifier's label, and a non-"TUP" answer is
    the classifier's own, given only when the shoulders differ by at least
    0.02 and the nose z is at most -0.15. *)
Theorem posture_adjustment (r : option Posture.PoseReading) :
  (r = None -> Posture.process_frame r = ("NO_PERSON"%string, false)) /\
  (forall pr, r = Some pr ->
   (snd (Posture.process_frame r) = true <->
    fst (Posture.process_frame r) = "TUP"%string) /\
   (fst (Posture.process_frame r) = "TUP"%string \/
    fst (Posture.process_frame r) = Posture.raw_label pr) /\
   (snd (Posture.process_frame r) = false ->
    fst (Posture.process_frame r) = Posture.raw_label pr /\
    2 # 100 <= Qabs (Posture.left_sh_y pr - Posture.right_sh_y pr) /\
    Posture.nose_z pr <= - (15 # 100))).
Proof.
  split; [intros ->; reflexivity |].
  intros pr ->; unfold Posture.process_frame, Posture.good_label.
  cbv zeta; cbn [fst snd].
  destruct (Qlt_le_dec (Qabs (Posture.left_sh_y pr - Posture.right_sh_y pr))
              (2 # 100)) as [Hs | Hs];
    [| destruct (Qlt_le_dec (- (15 # 100)) (Posture.nose_z pr)) as [Hn | Hn]];
    cbn [fst snd].
  - split; [tauto |]; split; [left; reflexivity | discriminate].
  - split; [tauto |]; split; [left; reflexivity | discriminate].
  - split; [split; [apply String.eqb_eq | intro H; apply String.eqb_eq; exact H] |].
    split; [right; reflexivity |].
    intro; repeat split; assumption.
Qed.

(** Successive times, each at least [send_interval] after the one before
    (the first after [last]). *)
Fixpoint spaced (send_interval last : Q) (ts : list Q) : Prop :=
  match ts with
  | [] => True
  | t :: rest => send_interval <= t - last /\ spaced send_interval t rest
  end.

(** main.py send gate: every send happens at least [send_interval] after
    the previous one (the first at least [send_interval] after the start
    time), and a frame at least [send_interval] after the last send always
    sends. *)
Theorem send_gate_spacing (send_interval last : Q) (frames : list Q) :
  spaced send_interval last (MainLoop.send_times send_interval last frames) /\
  (forall now rest, frames = now :: rest -> send_interval <= now - last ->
   MainLoop.send_times send_interval last frames
     = now :: MainLoop.send_times send_interval now rest).
Proof.
  split.
  - revert last; induction frames as [|now rest IH]; intro last; simpl;
      [exact I |].
    unfold MainLoop.send_gate.
    destruct (Qle_bool send_interval (now - last)) eqn:Hq.
    + split; [apply Qle_bool_iff; exact Hq | apply IH].
    + apply IH.
  - intros now rest -> H; simpl; unfold MainLoop.send_gate.
    apply Qle_bool_iff in H; rewrite H; reflexivity.
Qed.

End DetectionProofs.

Module WSClientMore.
Import WSClient WSClientWorker.
Open Scope string_scope.
Open Scope list_scope.
Open Scope ws_scope.

Ltac run_m :=
  cbv beta iota zeta delta [bind ret get modify raise try_except logger
    put_nowait ws_close is_exception is_queue_full is_ws_closed
    is_queue_empty queue_get _keep_alive ws_send _safe_close
    worker_connected_iteration] in *.

Lemma worker_pass_ok (st : client) (sk : socket)
    (Hc : connected st = true) (Hws : ws st = Some sk) :
  fst (worker_connected_iteration true SendOk st)
    = Ok (match queue st with x :: _ => x | [] => None end) /\
  queue (snd (worker_connected_iteration true SendOk st)) = tl (queue st) /\
  connected (snd (worker_connected_iteration true SendOk st)) = true /\
  ws (snd (worker_connected_iteration true SendOk st)) = Some sk /\
  log (snd (worker_connected_iteration true SendOk st)) = log st.
Proof.
  run_m.
  destruct (queue st) as [| x r] eqn:Eq; simpl; rewrite Hc, Hws; simpl;
    (destruct (Qle_bool ping_interval (clock st - last_ping_time st)); simpl);
    try (destruct x); simpl; rewrite ?Hc, ?Hws, ?Eq; simpl;
    repeat split; auto.
Qed.

Lemma worker_passes_drain (q : list qitem) (st : client) (sk : socket)
    (Hq : queue st = q) (Hc : connected st = true) (Hws : ws st = Some sk) :
  fst (worker_connected_passes (List.length q) st)
    = Ok (List.concat (map option_list q)) /\
  queue (snd (worker_connected_passes (List.length q) st)) = [] /\
  connected (snd (worker_connected_passes (List.length q) st)) = true /\
  ws (snd (worker_connected_passes (List.length q) st)) = Some sk.
Proof.
  revert st Hq Hc Hws; induction q as [| x r IH]; intros st Hq Hc Hws.
  - simpl; repeat split; assumption.
  - destruct (worker_pass_ok st sk Hc Hws) as (H1 & H2 & H3 & H4 & _).
    rewrite Hq in H1, H2; simpl in H2.
    destruct (worker_connected_iteration true SendOk st) as [r1 s1] eqn:E.
    simpl in H1, H2, H3, H4; subst r1.
    destruct (IH s1 H2 H3 H4) as (G1 & G2 & G3 & G4).
    destruct (worker_connected_passes (List.length r) s1) as [r2 s2] eqn:E2.
    simpl in G1, G2, G3, G4; subst r2.
    simpl; unfold bind, ret; rewrite E, E2; simpl.
    repeat split; assumption.
Qed.

(** Delivery order: on a live connection with pings and sends succeeding,
    as many passes of the worker loop as there are queued items send the
    queued messages exactly in the order they were enqueued, skip the
    [None] items that [close] puts in, and leave the queue empty. *)
Theorem worker_sends_in_fifo_order (st : client) (sk : socket)
    (Hc : connected st = true) (Hws : ws st = Some sk) :
  fst (worker_connected_passes (List.length (queue st)) st)
    = Ok (List.concat (map option_list (queue st))) /\
  queue (snd (worker_connected_passes (List.length (queue st)) st)) = [] /\
  connected (snd (worker_connected_passes (List.length (queue st)) st))
    = true.
Proof.
  destruct (worker_passes_drain (queue st) st sk eq_refl Hc Hws)
    as (H1 & H2 & H3 & _).
  repeat split; assumption.
Qed.

(** A connected client holding two messages and a [close] marker. *)
Definition demo_live_client : client :=
  set_queue [Some "a"; None; Some "b"]
    (set_connected true
       (set_ws (Some (mkSocket 1 false)) WSClientProofs.demo_client)).

Lemma worker_sends_in_fifo_order_witness :
  connected demo_live_client = true /\
  fst (worker_connected_passes 3 demo_live_client) = Ok ["a"; "b"].
Proof.
  split; [reflexivity |].
  exact (proj1 (worker_sends_in_fifo_order demo_live_client (mkSocket 1 false)
                  eq_refl eq_refl)).
Defined.

(** At-most-once delivery: when [ws.send] raises on a live connection, the
    popped message is not put back: the queue loses it, the socket is
    closed and dropped, [connected] becomes false, and the failure is
    logged (a warning for a lost connection, an error otherwise). *)
Theorem send_failure_drops_message (st : client) (sk : socket)
    (m : string) (rest : list qitem) (o : send_outcome)
    (Hc : connected st = true) (Hws : ws st = Some sk)
    (Hq : queue st = Some m :: rest) (Ho : o <> SendOk) :
  fst (worker_connected_iteration true o st) = Ok None /\
  queue (snd (worker_connected_iteration true o st)) = rest /\
  connected (snd (worker_connected_iteration true o st)) = false /\
  ws (snd (worker_connected_iteration true o st)) = None /\
  sock_closes (snd (worker_connected_iteration true o st))
    = sock_closes st ++ [sock_id sk] /\
  log (snd (worker_connected_iteration true o st))
    = log st ++ [if match o with SendLost => true | _ => false end
                 then (WARNING, "Connection lost")
                 else (ERROR, "WS worker error")].
Proof.
  run_m; rewrite Hq; simpl; rewrite Hc, Hws; simpl.
  destruct (Qle_bool ping_interval (clock st - last_ping_time st)); simpl.
  all: rewrite Hws; simpl.
  all: destruct o; [contradiction | |]; simpl.
  all: rewrite Hws; simpl.
  all: destruct (close_raises sk); simpl; repeat split.
Qed.

Lemma send_failure_drops_message_witness :
  queue demo_live_client = Some "a" :: [None; Some "b"] /\
  queue (snd (worker_connected_iteration true SendLost demo_live_client))
    = [None; Some "b"].
Proof.
  split; [reflexivity |].
  exact (proj1 (proj2 (send_failure_drops_message demo_live_client
    (mkSocket 1 false) "a" [None; Some "b"] SendLost eq_refl eq_refl eq_refl
    ltac:(discriminate)))).
Defined.

(** A failed keep-alive ping also loses the message popped in the same
    pass: [_keep_alive] closes the socket, and the following
    [self.ws.send] on [None] fails into the generic handler, which logs an
    error; nothing is sent and nothing is put back. *)
Theorem ping_failure_drops_message (st : client) (sk : socket)
    (m : string) (rest : list qitem) (o : send_outcome)
    (Hc : connected st = true) (Hws : ws st = Some sk)
    (Hq : queue st = Some m :: rest)
    (Hdue : Qle_bool ping_interval (clock st - last_ping_time st) = true) :
  fst (worker_connected_iteration false o st) = Ok None /\
  queue (snd (worker_connected_iteration false o st)) = rest /\
  connected (snd (worker_connected_iteration false o st)) = false /\
  ws (snd (worker_connected_iteration false o st)) = None /\
  sock_closes (snd (worker_connected_iteration false o st))
    = sock_closes st ++ [sock_id sk] /\
  log (snd (worker_connected_iteration false o st))
    = log st ++ [(WARNING, "Ping failed"); (ERROR, "WS worker error")].
Proof.
  run_m; rewrite Hq; simpl; rewrite Hc, Hws; simpl; rewrite Hdue; simpl;
    rewrite Hws; simpl.
  destruct (close_raises sk); simpl; rewrite <- !app_assoc; repeat split.
Qed.

Lemma ping_failure_drops_message_witness :
  Qle_bool ping_interval
    (clock (set_last_ping_time (-20) demo_live_client)
     - last_ping_time (set_last_ping_time (-20) demo_live_client)) = true /\
  connected (snd (worker_connected_iteration false SendOk
                    (set_last_ping_time (-20) demo_live_client))) = false.
Proof.
  split; [reflexivity |].
  exact (proj1 (proj2 (proj2 (ping_failure_drops_message
    (set_last_ping_time (-20) demo_live_client) (mkSocket 1 false) "a"
    [None; Some "b"] SendOk eq_refl eq_refl eq_refl eq_refl)))).
Defined.


Lemma try_connect_queue (cc : string -> option socket) (url : string)
    (st : client) :
  queue (snd (_try_connect cc url st)) = queue st.
Proof.
  unfold _try_connect, _start_receiver; run_m.
  destruct (cc url) as [sk |]; simpl; [| reflexivity].
  destruct (ws st) as [old |]; simpl; [destruct (close_raises old) |]; simpl;
    destruct (receiver_alive st); reflexivity.
Qed.

Lemma connect_sequence_queue (cc : string -> option socket) (st : client) :
  queue (snd (_connect_sequence cc st)) = queue st.
Proof.
  unfold _connect_sequence; run_m.
  destruct (_try_connect cc (primary_url st) st) as [r1 s1] eqn:E1.
  pose proof (try_connect_queue cc (primary_url st) st) as Q1.
  rewrite E1 in Q1; simpl in Q1.
  destruct r1 as [[|] | e]; simpl; try exact Q1.
  destruct (_try_connect cc (backup_url st) (add_log (WARNING, "Switching to BACKUP server") s1)) as [r2 s2] eqn:E2.
  pose proof (try_connect_queue cc (backup_url st) (add_log (WARNING, "Switching to BACKUP server") s1)) as Q2.
  rewrite E2 in Q2; simpl in Q2.
  destruct r2 as [[|] | e]; simpl; congruence.
Qed.

Lemma put_nowait_bound (x : qitem) (st : client)
    (H : (List.length (queue st) <= maxsize)%nat) :
  (List.length (queue (snd (put_nowait x st))) <= maxsize)%nat.
Proof.
  run_m; unfold queue_full.
  destruct (Nat.leb maxsize (List.length (queue st))) eqn:F; simpl;
    [exact H |].
  apply Nat.leb_gt in F; rewrite length_app; simpl; lia.
Qed.

Lemma close_bound (st : client) (H : (List.length (queue st) <= maxsize)%nat) :
  (List.length (queue (snd (close st))) <= maxsize)%nat.
Proof.
  pose proof (put_nowait_bound None (set_stop_event true st) H) as P.
  unfold close; run_m; simpl in *.
  destruct (queue_full (queue st)); simpl in *;
    destruct (ws st) as [sk |]; simpl in *;
    try destruct (close_raises sk); simpl; assumption.
Qed.

Lemma send_json_bound (Payload : Type) (dumps : Payload -> option string)
    (d : Payload) (st : client) (H : (List.length (queue st) <= maxsize)%nat) :
  (List.length (queue (snd (send_json Payload dumps d st))) <= maxsize)%nat.
Proof.
  unfold send_json, _start_worker; run_m.
  destruct (dumps d) as [m |]; [| exact H].
  destruct (worker_alive st);
    cbn [queue set_worker_alive set_stop_event negb];
    destruct (queue_full (queue st)) eqn:F; simpl; rewrite ?F; simpl;
    try exact H;
    unfold queue_full in F; apply Nat.leb_gt in F;
    rewrite length_app; simpl; lia.
Qed.

Lemma worker_iteration_shrinks (p : bool) (o : send_outcome) (st : client) :
  (List.length (queue (snd (worker_connected_iteration p o st)))
    <= List.length (queue st))%nat.
Proof.
  run_m.
  destruct (queue st) as [| x r] eqn:Eq; simpl;
  destruct (connected st) eqn:C; destruct (ws st) as [sk |] eqn:W;
    destruct (Qle_bool ping_interval (clock st - last_ping_time st)) eqn:Qd;
    destruct p; try destruct x; destruct o;
    do 4 (simpl; rewrite ?Eq, ?C, ?W, ?Qd);
    try destruct (close_raises sk); simpl; rewrite ?Eq; simpl; lia.
Qed.

Lemma receive_queue (loads : string -> option json) (r : recv_outcome)
    (st : client) :
  queue (snd (receive_iteration loads r st)) = queue st.
Proof.
  unfold receive_iteration, ws_recv; run_m.
  destruct (negb (connected st) || match ws st with None => true | Some _ => false end);
    [reflexivity |].
  destruct r as [msg | e]; simpl; [| destruct e; reflexivity].
  destruct (String.eqb msg ""); [reflexivity |].
  destruct (loads msg) as [[| | | | | kv] |]; try reflexivity.
  destruct (get_eq_str (dict_get "type" kv) "camera_control"); [| reflexivity].
  destruct (get_eq_str (dict_get "action" kv) "stop"); [reflexivity |].
  destruct (get_eq_str (dict_get "action" kv) "start"); reflexivity.
Qed.

Lemma exec_op_bound (Payload : Type) (dumps : Payload -> option string)
    (loads : string -> option json) (cc : string -> option socket)
    (op : client_op Payload) (st : client)
    (H : (List.length (queue st) <= maxsize)%nat) :
  (List.length (queue (exec_op Payload dumps loads cc op st)) <= maxsize)%nat.
Proof.
  destruct op as [d | | | | p o | r]; simpl.
  - exact (send_json_bound Payload dumps d st H).
  - exact (close_bound st H).
  - unfold connect, _start_worker; run_m.
    destruct (worker_alive st); exact H.
  - rewrite connect_sequence_queue; exact H.
  - pose proof (worker_iteration_shrinks p o st); lia.
  - rewrite receive_queue; exact H.
Qed.

(** The send queue never holds more than [maxsize] (10) items: from any
    client whose queue is within the bound, every interleaving of
    [send_json], [close], [connect], [_connect_sequence], passes of the
    worker loop and iterations of the receive loop keeps it within the
    bound ([send_json] drops and [close] skips its [None] marker when the
    queue is full). *)
Theorem queue_never_exceeds_maxsize (Payload : Type)
    (dumps : Payload -> option string) (loads : string -> option json)
    (cc : string -> option socket) (ops : list (client_op Payload))
    (st : client) (H : (List.length (queue st) <= maxsize)%nat) :
  (List.length (queue (exec_ops Payload dumps loads cc ops st))
    <= maxsize)%nat.
Proof.
  revert st H; induction ops as [| op rest IH]; intros st H; simpl;
    [exact H |].
  apply IH, exec_op_bound, H.
Qed.

Lemma queue_never_exceeds_maxsize_witness :
  (List.length (queue WSClientProofs.demo_full_client) <= maxsize)%nat /\
  (List.length (queue (exec_ops string (@Some string) (fun _ => None)
     (fun _ => None) [OpSendJson "x"; OpClose; OpSendJson "y"]
     WSClientProofs.demo_full_client)) <= maxsize)%nat.
Proof.
  split; [vm_compute; lia |].
  exact (queue_never_exceeds_maxsize string (@Some string) (fun _ => None)
    (fun _ => None) [OpSendJson "x"; OpClose; OpSendJson "y"]
    WSClientProofs.demo_full_client ltac:(vm_compute; lia)).
Defined.

(** Reconnecting over a stale handle: when [create_connection] succeeds
    while [self.ws] still holds an old socket, [_try_connect] closes the
    old socket once (even when its [close] raises), installs the new one,
    marks the client connected to [url], restarts the ping clock, makes
    sure the receiver runs, and leaves the send queue alone. *)
Theorem try_connect_replaces_stale_socket (cc : string -> option socket)
    (url : string) (st : client) (old sk : socket)
    (Hws : ws st = Some old) (Hcc : cc url = Some sk) :
  fst (_try_connect cc url st) = Ok true /\
  ws (snd (_try_connect cc url st)) = Some sk /\
  connected (snd (_try_connect cc url st)) = true /\
  active_url (snd (_try_connect cc url st)) = url /\
  last_ping_time (snd (_try_connect cc url st)) = clock st /\
  receiver_alive (snd (_try_connect cc url st)) = true /\
  sock_closes (snd (_try_connect cc url st)) = sock_closes st ++ [sock_id old] /\
  queue (snd (_try_connect cc url st)) = queue st.
Proof.
  unfold _try_connect, _start_receiver; run_m.
  rewrite Hcc; simpl; rewrite Hws; simpl.
  destruct (close_raises old); simpl;
    destruct (receiver_alive st) eqn:R; simpl; repeat split; exact R.
Qed.

Lemma try_connect_replaces_stale_socket_witness :
  ws demo_live_client = Some (mkSocket 1 false) /\
  sock_closes (snd (_try_connect (fun _ => Some (mkSocket 2 false))
                      "ws://backup" demo_live_client)) = [1%nat].
Proof.
  split; [reflexivity |].
  exact (proj1 (proj2 (proj2 (proj2 (proj2 (proj2 (proj2
    (try_connect_replaces_stale_socket (fun _ => Some (mkSocket 2 false))
       "ws://backup" demo_live_client (mkSocket 1 false) (mkSocket 2 false)
       eq_refl eq_refl)))))))).
Defined.

(** Both endpoints down: [_connect_sequence] returns false and changes
    nothing but the log, which gains the two attempts, their failures and
    the switch to the backup, in that order; in particular a stale handle
    and the [connected] flag are left as they were. *)
Theorem connect_sequence_both_down (cc : string -> option socket)
    (st : client)
    (Hp : cc (primary_url st) = None) (Hb : cc (backup_url st) = None) :
  _connect_sequence cc st =
    (Ok false,
     add_log (WARNING, msg_failed (backup_url st))
       (add_log (INFO, msg_trying (backup_url st))
          (add_log (WARNING, "Switching to BACKUP server")
             (add_log (WARNING, msg_failed (primary_url st))
                (add_log (INFO, msg_trying (primary_url st)) st))))).
Proof.
  unfold _connect_sequence, _try_connect; run_m.
  rewrite Hp; simpl; rewrite Hb; reflexivity.
Qed.

Lemma connect_sequence_both_down_witness :
  fst (_connect_sequence (fun _ => None) demo_live_client) = Ok false.
Proof.
  rewrite (connect_sequence_both_down (fun _ => None) demo_live_client
             eq_refl eq_refl).
  reflexivity.
Defined.

(** The receive loop on a lost connection: when [self.ws.recv()] raises
    [WebSocketConnectionClosedException] only [connected] is cleared; the
    dead socket stays in [self.ws] and is not closed (the worker's next
    [_try_connect] closes it).  Any other exception of [recv] only logs a
    warning and keeps the connection marked live. *)
Theorem receive_exception_effect (loads : string -> option json)
    (e : exn) (st : client) (sk : socket)
    (Hc : connected st = true) (Hws : ws st = Some sk) :
  receive_iteration loads (RecvRaises e) st =
    (Ok tt, if is_ws_closed e then set_connected false st
            else add_log (WARNING, "WS recv error") st).
Proof.
  unfold receive_iteration, ws_recv; run_m.
  rewrite Hc, Hws; simpl; destruct e; reflexivity.
Qed.

Lemma receive_exception_effect_witness :
  snd (receive_iteration (fun _ => None)
         (RecvRaises WebSocketConnectionClosedException) demo_live_client)
    = set_connected false demo_live_client.
Proof.
  rewrite (receive_exception_effect (fun _ => None)
             WebSocketConnectionClosedException demo_live_client
             (mkSocket 1 false) eq_refl eq_refl).
  reflexivity.
Defined.

(** The two threads together: after the receiver sees the connection
    closed, the worker's reconnect through [_connect_sequence] to a
    reachable primary closes the dead socket exactly once and replaces
    it. *)
Theorem lost_then_reconnect_closes_dead_socket
    (loads : string -> option json) (cc : string -> option socket)
    (st : client) (dead sk : socket)
    (Hc : connected st = true) (Hws : ws st = Some dead)
    (Hp : cc (primary_url st) = Some sk) :
  let st1 := snd (receive_iteration loads
                    (RecvRaises WebSocketConnectionClosedException) st) in
  connected st1 = false /\
  fst (_connect_sequence cc st1) = Ok true /\
  ws (snd (_connect_sequence cc st1)) = Some sk /\
  sock_closes (snd (_connect_sequence cc st1)) = sock_closes st ++ [sock_id dead].
Proof.
  intro st1.
  assert (E1 : st1 = set_connected false st).
  { subst st1; unfold receive_iteration, ws_recv; run_m.
    rewrite Hc, Hws; reflexivity. }
  rewrite E1; clear E1 st1.
  unfold _connect_sequence, _try_connect, _start_receiver; run_m; simpl.
  rewrite Hp; simpl; rewrite Hws; simpl.
  destruct (close_raises dead); simpl;
    destruct (receiver_alive st); simpl; repeat split.
Qed.

Lemma lost_then_reconnect_closes_dead_socket_witness :
  sock_closes (snd (_connect_sequence (fun _ => Some (mkSocket 2 false))
    (snd (receive_iteration (fun _ => None)
            (RecvRaises WebSocketConnectionClosedException)
            demo_live_client)))) = [1%nat].
Proof.
  exact (proj2 (proj2 (proj2 (lost_then_reconnect_closes_dead_socket
    (fun _ => None) (fun _ => Some (mkSocket 2 false)) demo_live_client
    (mkSocket 1 false) (mkSocket 2 false) eq_refl eq_refl eq_refl)))).
Defined.
End WSClientMore.
